(** * Hardware experiment tracker: chart series and summary statistics

    A shallow embedding of the data computations of
    [src/components/ComparisonPanel.tsx] and [src/components/PlotPanel.tsx]:
    the numeric column discovery, the single-dataset plot projection, the
    positional alignment of several datasets under one metric, the stroke
    colors of the overlay chart and the summary statistics table; and of
    the handlers around them: the selection, upload and duplication of the
    dashboard, the tags and custom parameters of the new-experiment form,
    and the sample rows of the upload dialog.

    Modelling conventions.
    - A JavaScript number is an IEEE 754 binary64 value: Rocq's primitive
      [float].  Array lengths and loop counters are [nat]; [of_nat] injects
      them into the numbers where the source stores one in an object.
    - A row and a chart record are plain objects used as maps.  An object is
      the list of its own enumerable properties in enumeration order;
      [own] is the own-property lookup, [get] the read [o[k]] (undefined
      when the key is absent) and [put] the definition of an own property
      (an entry of an object literal, a spread, [Object.fromEntries]).
      Reads do not follow the prototype chain.  The assignment
      [point[name] = v] of [chartData] does: under the key "__proto__" it
      reaches the accessor of [Object.prototype], see [assign].
      A record built by [put] lists its keys in the order they were first
      written, where JavaScript moves integer-like keys to the front; the
      results below speak of the keys and values of a record, never of
      the order of its keys.
    - React hooks ([useState], [useMemo]) only cache; each memoised value is
      the function of the props and state it is computed from. *)

From Stdlib Require Import ZArith Floats Uint63.
From stdpp Require Import list strings pretty.

Open Scope string_scope.
Open Scope list_scope.
Open Scope nat_scope.

(** ** Values *)

Inductive value : Type :=
  | VNum (x : float)
  | VStr (s : string)
  | VBool (b : bool)
  | VNull
  | VUndef.

(** [typeof v === 'number'] *)
Definition is_number (v : value) : bool :=
  match v with VNum _ => true | _ => false end.

(** The number with the integer value [n]: exact below 2^53, which no array
    length reaches. *)
Definition of_nat (n : nat) : float :=
  PrimFloat.of_uint63 (Uint63.of_Z (Z.of_nat n)).

(** ** Objects *)

Abbreviation obj := (list (string * value)).

(** [Object.prototype.hasOwnProperty.call(o, k)], with the value found. *)
Fixpoint own (o : obj) (k : string) : option value :=
  match o with
  | [] => None
  | (k', v) :: o' => if decide (k' = k) then Some v else own o' k
  end.

Definition hasOwnProperty (o : obj) (k : string) : bool :=
  match own o k with Some _ => true | None => false end.

(** [o[k]] *)
Definition get (o : obj) (k : string) : value :=
  default VUndef (own o k).

(** [Object.keys(o)] *)
Definition keys (o : obj) : list string := o.*1.

(** [o[k] = v]: an existing property keeps its place, a new one goes last. *)
Fixpoint put (o : obj) (k : string) (v : value) : obj :=
  match o with
  | [] => [(k, v)]
  | (k', v') :: o' =>
      if decide (k' = k) then (k, v) :: o' else (k', v') :: put o' k v
  end.

(** The spread [...src] inside an object literal: every own key of [src],
    in order, is read from [src] and defined on the target. *)
Definition spread (target src : obj) : obj :=
  foldl (fun acc k => put acc k (get src k)) target (keys src).

(** ** Experiments ([Dashboard], interface [Experiment]) *)

(** Only the fields the two panels compute with; [data] is optional. *)
Record Experiment : Type := {
  id : string;
  name : string;
  data : option (list obj)
}.

(** [exp.data && exp.data.length > 0] *)
Definition hasData (exp : Experiment) : bool :=
  match data exp with
  | Some (_ :: _) => true
  | _ => false
  end.

Definition rows (exp : Experiment) : list obj := default [] (data exp).

(** ** ComparisonPanel *)

(** A JavaScript [Set] keeps insertion order and ignores a repeated [add]. *)
Definition Set_add (columns : list string) (key : string) : list string :=
  if decide (key ∈ columns) then columns else columns ++ [key].

(** [allDataColumns] *)
Definition allDataColumns (experiments : list Experiment) : list string :=
  foldl (fun columns exp =>
           match data exp with
           | Some (row0 :: _) =>
               foldl (fun columns key =>
                        if is_number (get row0 key)
                        then Set_add columns key else columns)
                     columns (keys row0)
           | _ => columns
           end)
        [] experiments.

(** The filter shared by [chartData], the [Line] elements and the summary
    table: [exp.data && exp.data.length > 0 &&
    Object.prototype.hasOwnProperty.call(exp.data[0], comparisonMetric)]. *)
Definition hasMetric (comparisonMetric : string) (exp : Experiment) : bool :=
  match data exp with
  | Some (row0 :: _) => hasOwnProperty row0 comparisonMetric
  | _ => false
  end.

Definition experimentsWithMetric
    (experiments : list Experiment) (comparisonMetric : string)
    : list Experiment :=
  filter (fun exp => hasMetric comparisonMetric exp) experiments.

(** A record under construction: its own properties, and whether its
    prototype is still [Object.prototype]. *)
Abbreviation record := (obj * bool)%type.

(** The assignment [point[k] = v].  Under every key but "__proto__" it
    defines or overwrites the own property.  Under "__proto__" it calls the
    setter inherited from [Object.prototype], which stores no property:
    null becomes the prototype, any other value of a row (a number, a
    string, a boolean, undefined) is ignored.  Once the prototype is null
    no setter is inherited and "__proto__" is a key like the others. *)
Definition assign (point : record) (k : string) (v : value) : record :=
  if decide (k = "__proto__") then
    if point.2
    then (point.1, match v with VNull => false | _ => true end)
    else (put point.1 k v, false)
  else (put point.1 k v, point.2).

(** One pass of the [forEach] inside the loop of [chartData]. *)
Definition chartStep (comparisonMetric : string) (i : nat)
    (point : record) (exp : Experiment) : record :=
  match data exp with
  | Some d =>
      match d !! i with
      | Some row => assign point (name exp) (get row comparisonMetric)
      | None => point
      end
  | None => point
  end.

(** The body of the [for] loop of [chartData] at index [i]: the own
    properties of the record pushed. *)
Definition chartPoint
    (withMetric : list Experiment) (comparisonMetric : string) (i : nat)
    : obj :=
  (foldl (chartStep comparisonMetric i)
         ([("index", VNum (of_nat i))], true) withMetric).1.

(** [chartData] *)
Definition chartData
    (experiments : list Experiment) (comparisonMetric : string)
    : list obj :=
  if decide (comparisonMetric = "") then []
  else
    let withMetric := experimentsWithMetric experiments comparisonMetric in
    if decide (length withMetric = 0) then []
    else
      let maxLength := max_list ((fun exp => length (rows exp)) <$> withMetric) in
      (fun i => chartPoint withMetric comparisonMetric i) <$> seq 0 maxLength.

(** The series a chart record carries: its keys other than ["index"]. *)
Definition seriesNames (data : list obj) : list string :=
  filter (fun k => k ≠ "index") (data ≫= keys).

(** [colors] *)
Definition colors : list string :=
  ["#2563EB"; "#10B981"; "#F59E0B"; "#EF4444"; "#8B5CF6"; "#06B6D4"].

(** The props of a rendered [<Line>] that depend on the data. *)
Record Line : Type := {
  key : string;
  dataKey : string;
  stroke : option string
}.

(** The [<Line>] elements of the overlay chart: the experiments with the
    metric, mapped with their position.  The chart is rendered only when
    [chartData.length > 0].  Reading an array out of range gives undefined,
    here [None]. *)
Definition chartLines
    (experiments : list Experiment) (comparisonMetric : string)
    : list Line :=
  if decide (0 < length (chartData experiments comparisonMetric)) then
    imap (fun index exp =>
            {| key := id exp;
               dataKey := name exp;
               stroke := colors !! (index mod length colors) |})
         (experimentsWithMetric experiments comparisonMetric)
  else [].

(** *** Summary statistics *)

Definition is_neg_zero (x : float) : bool :=
  match PrimFloat.classify x with NZero => true | _ => false end.

Definition is_pos_zero (x : float) : bool :=
  match PrimFloat.classify x with PZero => true | _ => false end.

(** [Math.min(...args)] from the running value [lowest]: a NaN argument
    makes the result NaN, and -0 counts as smaller than +0. *)
Fixpoint Math_min_from (lowest : float) (args : list float) : float :=
  match args with
  | [] => lowest
  | number :: rest =>
      if PrimFloat.is_nan number then nan
      else if is_neg_zero number && is_pos_zero lowest
           then Math_min_from number rest
      else if (number <? lowest)%float then Math_min_from number rest
      else Math_min_from lowest rest
  end.

Definition Math_min (args : list float) : float :=
  Math_min_from infinity args.

Fixpoint Math_max_from (highest : float) (args : list float) : float :=
  match args with
  | [] => highest
  | number :: rest =>
      if PrimFloat.is_nan number then nan
      else if is_pos_zero number && is_neg_zero highest
           then Math_max_from number rest
      else if (highest <? number)%float then Math_max_from number rest
      else Math_max_from highest rest
  end.

Definition Math_max (args : list float) : float :=
  Math_max_from neg_infinity args.

(** [Math.sqrt] is the IEEE 754 square root. *)
Definition Math_sqrt (x : float) : float := PrimFloat.sqrt x.

(** [values]: the metric read in every row, the numbers kept.  What is
    kept are numbers only, so the array is a list of floats. *)
Definition asNumber (v : value) : option float :=
  match v with VNum x => Some x | _ => None end.

Definition metricValues (comparisonMetric : string) (d : list obj)
    : list float :=
  omap asNumber ((fun row => get row comparisonMetric) <$> d).

(** One row of the summary table, before the cells are formatted. *)
Record SummaryRow : Type := {
  rowKey : string;
  rowName : string;
  count : nat;
  min : float;
  max : float;
  avg : float;
  stdDev : float
}.

Section SummaryStatistics.

(** ECMAScript leaves the precision of [Math.pow] to the engine: it is a
    parameter of the table, and what a result needs of it is stated
    there. *)
Variable Math_pow : float -> float -> float.

(** The callback of the summary table's [map]. *)
Definition summaryRow (comparisonMetric : string) (exp : Experiment)
    : SummaryRow :=
  let values := metricValues comparisonMetric (rows exp) in
  let min := Math_min values in
  let max := Math_max values in
  let avg :=
    (foldl (fun sum val => sum + val) 0 values / of_nat (length values))%float in
  let stdDev :=
    Math_sqrt
      (foldl (fun sum val => sum + Math_pow (val - avg) 2) 0 values
       / of_nat (length values))%float in
  {| rowKey := id exp; rowName := name exp; count := length values;
     min := min; max := max; avg := avg; stdDev := stdDev |}.

(** The summary table; it is rendered only when a metric is selected. *)
Definition summaryStatistics
    (experiments : list Experiment) (comparisonMetric : string)
    : list SummaryRow :=
  if decide (comparisonMetric = "") then []
  else summaryRow comparisonMetric
         <$> experimentsWithMetric experiments comparisonMetric.

End SummaryStatistics.

(** ** PlotPanel *)

(** [experimentsWithData] *)
Definition experimentsWithData (experiments : list Experiment)
    : list Experiment :=
  filter (fun exp => hasData exp) experiments.

(** [experimentsWithData.find(exp => exp.id === selectedExperimentForPlot)] *)
Definition findExperiment
    (experiments : list Experiment) (selectedExperimentForPlot : string)
    : option Experiment :=
  snd <$> list_find (fun exp => id exp = selectedExperimentForPlot)
                    (experimentsWithData experiments).

(** [availableColumns] *)
Definition availableColumns
    (experiments : list Experiment) (selectedExperimentForPlot : string)
    : list string :=
  if decide (selectedExperimentForPlot = "") then []
  else
    match findExperiment experiments selectedExperimentForPlot with
    | None => []
    | Some experiment =>
        match data experiment with
        | Some (row0 :: _) =>
            filter (fun key => is_number (get row0 key)) (keys row0)
        | _ => []
        end
    end.

(** The record built for one row by the callback of [plotData]'s [map]:
    [{ index, [xAxis]: row[xAxis], [yAxis]: row[yAxis], ...row }]. *)
Definition plotRecord (xAxis yAxis : string) (index : nat) (row : obj) : obj :=
  spread
    (put (put [("index", VNum (of_nat index))] xAxis (get row xAxis))
         yAxis (get row yAxis))
    row.

(** [plotData] *)
Definition plotData
    (experiments : list Experiment)
    (selectedExperimentForPlot xAxis yAxis : string)
    : list obj :=
  if decide (selectedExperimentForPlot = "" ∨ xAxis = "" ∨ yAxis = "") then []
  else
    match findExperiment experiments selectedExperimentForPlot with
    | None => []
    | Some experiment =>
        match data experiment with
        | None => []
        | Some d => imap (plotRecord xAxis yAxis) d
        end
    end.

(** ** The slot of a series in the record at an index *)

(** What the loop over the experiments leaves under the key [n] of the
    record at index [i]: the value of the last experiment named [n] that has
    a row at [i], if there is one. *)
Fixpoint lastWrite
    (withMetric : list Experiment) (comparisonMetric : string) (i : nat)
    (n : string) : option value :=
  match withMetric with
  | [] => None
  | exp :: rest =>
      match lastWrite rest comparisonMetric i n with
      | Some v => Some v
      | None =>
          if decide (name exp = n)
          then (fun row => get row comparisonMetric) <$> rows exp !! i
          else None
      end
  end.

(** Numeric at the first row: the test of the column pickers. *)
Definition firstRowNumeric (k : string) (exp : Experiment) : bool :=
  match data exp with
  | Some (row0 :: _) => hasOwnProperty row0 k && is_number (get row0 k)
  | _ => false
  end.

(** The dataset without the rows whose value at the metric is not a
    number. *)
Definition keepNumeric (comparisonMetric : string) (exp : Experiment)
    : Experiment :=
  {| id := id exp; name := name exp;
     data := Some (filter (fun row => is_number (get row comparisonMetric))
                          (rows exp)) |}.

(** The dataset with one more row at the end. *)
Definition appendRow (exp : Experiment) (row : obj) : Experiment :=
  {| id := id exp; name := name exp; data := Some (rows exp ++ [row]) |}.

(** ** Sample datasets *)

Definition num (x : float) : value := VNum x.

Definition expX : Experiment :=
  {| id := "x"; name := "X";
     data := Some [[("t", num 0); ("v", num 1)];
                   [("t", num 1); ("v", num 2)];
                   [("t", num 2); ("v", num 3)]] |}.

Definition expY : Experiment :=
  {| id := "y"; name := "Y";
     data := Some [[("t", num 0); ("v", num 5)];
                   [("t", num 1); ("v", num 7)]] |}.

(** A second dataset displayed under the name of [expX]. *)
Definition expShadow : Experiment :=
  {| id := "x2"; name := "X"; data := Some [[("t", num 0); ("v", num 5)]] |}.

(** A dataset with a column of its own called "index". *)
Definition expIndexed : Experiment :=
  {| id := "i"; name := "I";
     data := Some [[("index", num 7); ("v", num 1)];
                   [("index", num 9); ("v", num 2)]] |}.

(** A [Math.pow] for the examples: the exact square, the table raising to
    the power 2 only. *)
Definition squarePow (base exponent : float) : float := (base * base)%float.

(** A dataset displayed under the name "__proto__". *)
Definition expProto : Experiment :=
  {| id := "p"; name := "__proto__"; data := Some [[("v", num 5)]] |}.

(** A dataset whose column [v] holds text. *)
Definition expText : Experiment :=
  {| id := "a"; name := "A"; data := Some [[("v", VStr "x")]] |}.

(** ** ComparisonPanel: the custom parameters *)

(** [allCustomColumns], from the [customColumns] object of each experiment
    in order. *)
Definition allCustomColumns (customColumns : list obj) : list string :=
  foldl (fun columns cc => foldl Set_add columns (keys cc)) [] customColumns.

(** ** Dashboard *)

(** The handlers below are given on the fields of [Experiment] modelled
    here; the other fields are copied along or stamped with the date and
    are read by none of the computations of the panels. *)

(** [handleSelectExperiment], as the function from the previous selection
    to the next. *)
Definition handleSelectExperiment
    (prev : list string) (experimentId : string) (checked : bool)
    : list string :=
  if checked then prev ++ [experimentId]
  else filter (fun id' => id' ≠ experimentId) prev.

(** The [experiments] prop handed to the comparison panel:
    [experiments.filter(exp => selectedExperiments.includes(exp.id))]. *)
Definition comparedExperiments
    (experiments : list Experiment) (selectedExperiments : list string)
    : list Experiment :=
  filter (fun exp => id exp ∈ selectedExperiments) experiments.

(** [Partial<Experiment>]: each field may be present or not. *)
Record Updates : Type := {
  newId : option string;
  newName : option string;
  newData : option (list obj)
}.

(** [{ ...exp, ...updates }] *)
Definition applyUpdates (exp : Experiment) (updates : Updates) : Experiment :=
  {| id := default (id exp) (newId updates);
     name := default (name exp) (newName updates);
     data := match newData updates with
             | Some d => Some d
             | None => data exp
             end |}.

(** [handleUpdateExperiment] *)
Definition handleUpdateExperiment
    (prev : list Experiment) (experimentId : string) (updates : Updates)
    : list Experiment :=
  (fun exp => if decide (id exp = experimentId)
              then applyUpdates exp updates else exp) <$> prev.

(** [handleDataUpload] of the card of experiment [experimentId]:
    [onUpdate({ data })]. *)
Definition handleDataUpload
    (prev : list Experiment) (experimentId : string) (data : list obj)
    : list Experiment :=
  handleUpdateExperiment prev experimentId
    {| newId := None; newName := None; newData := Some data |}.

(** [handleDuplicateExperiment]; [now] is [Date.now().toString()]. *)
Definition handleDuplicateExperiment
    (now : string) (experiments : list Experiment) (experimentId : string)
    : list Experiment :=
  match list_find (fun exp => id exp = experimentId) experiments with
  | Some (_, original) =>
      {| id := now;
         name := String.append (name original) " (Copy)";
         data := data original |} :: experiments
  | None => experiments
  end.

(** ** CreateExperimentDialog *)

Section CreateExperimentDialog.

(** [String.prototype.trim] *)
Variable trim : string -> string.

(** [addTag]: the next [formData.tags] and the next [newTag]. *)
Definition addTag (tags : list string) (newTag : string)
    : list string * string :=
  if decide (trim newTag ≠ "" ∧ trim newTag ∉ tags)
  then (tags ++ [trim newTag], "")
  else (tags, newTag).

(** [removeTag] *)
Definition removeTag (tags : list string) (tagToRemove : string)
    : list string :=
  filter (fun tag => tag ≠ tagToRemove) tags.

(** [addCustomColumn]: the next [formData.customColumns]. *)
Definition addCustomColumn
    (customColumns : obj) (newColumnKey newColumnValue : string) : obj :=
  if decide (trim newColumnKey ≠ "" ∧ trim newColumnValue ≠ "")
  then put (spread [] customColumns) (trim newColumnKey)
           (VStr (trim newColumnValue))
  else customColumns.

End CreateExperimentDialog.

(** [Object.entries(o)] *)
Definition entries (o : obj) : list (string * value) :=
  (fun k => (k, get o k)) <$> keys o.

(** [Object.fromEntries(es)] *)
Definition fromEntries (es : list (string * value)) : obj :=
  foldl (fun o e => put o e.1 e.2) [] es.

(** [removeCustomColumn] *)
Definition removeCustomColumn (customColumns : obj) (keyToRemove : string)
    : obj :=
  fromEntries (filter (fun e => e.1 ≠ keyToRemove) (entries customColumns)).

(** ** ExcelUploadDialog: the sample rows *)

(** [s.includes(searchString)] *)
Definition includes (s searchString : string) : bool :=
  match String.index 0 searchString s with Some _ => true | None => false end.

Set Warnings "-inexact-float".

Section GenerateSampleData.

(** [String.prototype.toLowerCase] *)
Variable toLowerCase : string -> string.

(** The results of [Math.random()] in the order of the calls: the first
    call gives [Math.floor(Math.random() * 50)], a natural number, here
    [draw]; [random n] is the result of the call number [n] after it. *)
Variable draw : nat.
Variable random : nat -> float.

Definition isBattery (filename : string) : bool :=
  includes (toLowerCase filename) "battery"
  || includes (toLowerCase filename) "voltage".

Definition isThermal (filename : string) : bool :=
  includes (toLowerCase filename) "thermal"
  || includes (toLowerCase filename) "temp".

(** The row pushed at index [i] of the loop of [generateSampleData]. *)
Definition sampleRow (filename : string) (i : nat) : obj :=
  if isBattery filename then
    [("time", VNum (of_nat i * 0.1));
     ("voltage",
      VNum (3.7 - of_nat i * 0.002 + (random (4 * i)%nat - 0.5) * 0.05));
     ("current", VNum (2.0 + (random (4 * i + 1)%nat - 0.5) * 0.2));
     ("temperature", VNum (25 + (random (4 * i + 2)%nat - 0.5) * 5));
     ("power",
      VNum ((3.7 - of_nat i * 0.002)
            * (2.0 + (random (4 * i + 3)%nat - 0.5) * 0.2)))]%float
  else if isThermal filename then
    [("time", VNum (of_nat i * 60));
     ("temperature",
      VNum (22 + of_nat i * 0.5 + (random (4 * i)%nat - 0.5) * 2));
     ("power", VNum (50 + (random (4 * i + 1)%nat - 0.5) * 10));
     ("fan_speed",
      VNum (1000 + of_nat i * 10 + (random (4 * i + 2)%nat - 0.5) * 100));
     ("efficiency",
      VNum (0.85 - of_nat i * 0.001 + (random (4 * i + 3)%nat - 0.5) * 0.02))]%float
  else
    [("time", VNum (of_nat i));
     ("value_1", VNum (random (3 * i)%nat * 100));
     ("value_2", VNum (random (3 * i + 1)%nat * 50 + 25));
     ("value_3", VNum (random (3 * i + 2)%nat * 200));
     ("measurement", VStr (String.append "M" (pretty (i + 1)%nat)))]%float.

(** [generateSampleData] *)
Definition generateSampleData (filename : string) : list obj :=
  sampleRow filename <$> seq 0 (draw + 20).

(** The numeric columns of the sample rows of a file. *)
Definition sampleColumns (filename : string) : list string :=
  if isBattery filename
  then ["time"; "voltage"; "current"; "temperature"; "power"]
  else if isThermal filename
  then ["time"; "temperature"; "power"; "fan_speed"; "efficiency"]
  else ["time"; "value_1"; "value_2"; "value_3"].

End GenerateSampleData.

Set Warnings "+inexact-float".

(** ** Proof tools *)

(** A closed decidable proposition is settled by evaluating its decision. *)
Ltac by_decide :=
  match goal with
  | |- ?P => apply (bool_decide_unpack P); vm_compute; exact I
  end.

(** Membership in a closed list, found by evaluating the list. *)
Ltac by_elem_of :=
  vm_compute; repeat (apply list_elem_of_here || apply list_elem_of_further).

(** Two closed numbers that differ are told apart by evaluation. *)
Ltac num_discriminate H :=
  match type of H with
  | Some (VNum ?a) = Some (VNum _) =>
      apply (f_equal (fun o => match o with
                               | Some (VNum x) => PrimFloat.Leibniz.eqb x a
                               | _ => false
                               end)) in H;
      vm_compute in H; discriminate H
  | VNum ?a = VNum _ =>
      apply (f_equal (fun v => match v with
                               | VNum x => PrimFloat.Leibniz.eqb x a
                               | _ => false
                               end)) in H;
      vm_compute in H; discriminate H
  end.

(** * Objects *)

Section Objects.

Implicit Types (o : obj) (k : string) (v : value).

Lemma own_put o k v k' :
  own (put o k v) k' = if decide (k = k') then Some v else own o k'.
Proof.
  induction o as [|[k0 v0] o IH]; simpl.
  - destruct (decide (k = k')); reflexivity.
  - destruct (decide (k0 = k)) as [->|Hne]; simpl.
    + destruct (decide (k = k')); reflexivity.
    + rewrite IH. destruct (decide (k0 = k')) as [->|]; [|reflexivity].
      destruct (decide (k = k')); congruence.
Qed.

Lemma own_put_other o k v k' : k ≠ k' → own (put o k v) k' = own o k'.
Proof. intros. rewrite own_put. destruct (decide (k = k')); congruence. Qed.

Lemma elem_of_keys o k : k ∈ keys o ↔ is_Some (own o k).
Proof.
  unfold keys. induction o as [|[k0 v0] o IH]; simpl.
  - rewrite elem_of_nil. split; [tauto | intros [? ?]; discriminate].
  - rewrite elem_of_cons, IH. destruct (decide (k0 = k)) as [->|Hne].
    + split; eauto.
    + split; [intros [?|?]; congruence | tauto].
Qed.

Lemma hasOwnProperty_true o k : hasOwnProperty o k = true ↔ is_Some (own o k).
Proof.
  unfold hasOwnProperty. destruct (own o k); split; intros H; eauto.
  - discriminate.
  - destruct H; discriminate.
Qed.

Lemma own_get o k v : own o k = Some v → get o k = v.
Proof. unfold get. intros ->. reflexivity. Qed.

(** After a spread every own key of the source holds the source's value;
    the other keys of the target are untouched. *)
Lemma own_spread target src k :
  own (spread target src) k =
    match own src k with Some v => Some v | None => own target k end.
Proof.
  unfold spread.
  assert (Hgen : ∀ ks target,
    own (foldl (fun acc k => put acc k (get src k)) target ks) k =
      if decide (k ∈ ks) then Some (get src k) else own target k).
  { induction ks as [|k0 ks IH]; intros tg; simpl.
    - destruct (decide (k ∈ [])) as [Hin|]; [|reflexivity].
      apply elem_of_nil in Hin. destruct Hin.
    - rewrite IH. destruct (decide (k ∈ ks)) as [Hin|Hnin].
      + destruct (decide (k ∈ k0 :: ks)) as [|Hn]; [reflexivity|].
        exfalso. apply Hn. apply elem_of_cons. tauto.
      + rewrite own_put. destruct (decide (k0 = k)) as [->|Hne].
        * destruct (decide (k ∈ k :: ks)) as [|Hn]; [reflexivity|].
          exfalso. apply Hn. apply elem_of_cons. tauto.
        * destruct (decide (k ∈ k0 :: ks)) as [Hin|]; [|reflexivity].
          apply elem_of_cons in Hin. destruct Hin; congruence. }
  rewrite Hgen. destruct (decide (k ∈ keys src)) as [Hin|Hnin].
  - apply elem_of_keys in Hin. destruct Hin as [v Hv].
    rewrite Hv. f_equal. apply own_get, Hv.
  - destruct (own src k) as [v|] eqn:Hv; [|reflexivity].
    exfalso. apply Hnin, elem_of_keys. eauto.
Qed.

End Objects.

(** * ComparisonPanel: the aligned chart records *)

Section ChartData.

Implicit Types (experiments withMetric : list Experiment) (exp : Experiment).
Implicit Types (m n : string) (i : nat).

Lemma hasMetric_rows m exp :
  hasMetric m exp → ∃ row0 rest, rows exp = row0 :: rest ∧ is_Some (own row0 m).
Proof.
  unfold hasMetric, rows. destruct (data exp) as [[|row0 rest]|]; simpl;
    try (intros []; fail).
  intros H. exists row0, rest. split; [reflexivity|].
  apply hasOwnProperty_true. apply Is_true_true_1, H.
Qed.

Lemma elem_of_experimentsWithMetric experiments m exp :
  exp ∈ experimentsWithMetric experiments m ↔ hasMetric m exp ∧ exp ∈ experiments.
Proof. unfold experimentsWithMetric. rewrite list_elem_of_filter. tauto. Qed.

(** An assignment leaves every key other than its own as it was, and
    "__proto__" apart it stores its value. *)
Lemma own_assign (point : record) k v n :
  n ≠ "__proto__" →
  own (assign point k v).1 n = if decide (k = n) then Some v else own point.1 n.
Proof.
  intros Hn. unfold assign. destruct (decide (k = "__proto__")) as [->|Hk].
  - destruct (decide ("__proto__" = n)); [congruence|].
    destruct point.2; simpl; [reflexivity|].
    apply own_put_other. congruence.
  - simpl. apply own_put.
Qed.

(** The record at an index, key by key. *)
Lemma own_chartPoint_from withMetric m i (point : record) n :
  n ≠ "__proto__" →
  own (foldl (chartStep m i) point withMetric).1 n =
    match lastWrite withMetric m i n with
    | Some v => Some v
    | None => own point.1 n
    end.
Proof.
  intros Hn. revert point.
  induction withMetric as [|exp rest IH]; intros point; simpl.
  - reflexivity.
  - rewrite IH. destruct (lastWrite rest m i n); [reflexivity|].
    unfold chartStep, rows. destruct (data exp) as [d|]; simpl.
    + destruct (d !! i) as [row|]; simpl.
      * rewrite own_assign by exact Hn.
        destruct (decide (name exp = n)); reflexivity.
      * destruct (decide (name exp = n)); reflexivity.
    + destruct (decide (name exp = n)); reflexivity.
Qed.

Lemma own_chartPoint withMetric m i n :
  n ≠ "__proto__" →
  own (chartPoint withMetric m i) n =
    match lastWrite withMetric m i n with
    | Some v => Some v
    | None => if decide (n = "index") then Some (VNum (of_nat i)) else None
    end.
Proof.
  intros Hn. unfold chartPoint. rewrite own_chartPoint_from by exact Hn. simpl.
  destruct (decide ("index" = n)), (decide (n = "index")); congruence.
Qed.

Lemma lastWrite_app l1 l2 m i n :
  lastWrite (l1 ++ l2) m i n =
    match lastWrite l2 m i n with
    | Some v => Some v
    | None => lastWrite l1 m i n
    end.
Proof.
  induction l1 as [|exp l1 IH]; simpl.
  - destruct (lastWrite l2 m i n); reflexivity.
  - rewrite IH. destruct (lastWrite l2 m i n); reflexivity.
Qed.

Lemma lastWrite_None withMetric m i n :
  (∀ exp, exp ∈ withMetric → name exp ≠ n) → lastWrite withMetric m i n = None.
Proof.
  induction withMetric as [|exp rest IH]; intros Hn; simpl; [reflexivity|].
  rewrite IH by (intros e He; apply Hn, elem_of_cons; tauto).
  destruct (decide (name exp = n)) as [Heq|]; [|reflexivity].
  exfalso. apply (Hn exp); [apply elem_of_cons; tauto | exact Heq].
Qed.

Lemma lastWrite_is_Some withMetric m i n :
  is_Some (lastWrite withMetric m i n) ↔
  ∃ exp, exp ∈ withMetric ∧ name exp = n ∧ i < length (rows exp).
Proof.
  induction withMetric as [|exp rest IH]; simpl.
  - split; [intros [? ?]; discriminate|].
    intros (e & He & _). apply elem_of_nil in He. destruct He.
  - destruct (lastWrite rest m i n) as [v|] eqn:Hl.
    + split; [|eauto]. intros _.
      destruct (proj1 IH) as (e & He & Hne & Hlt); [eauto|].
      exists e. rewrite elem_of_cons. tauto.
    + destruct (decide (name exp = n)) as [Heq|Hne].
      * rewrite fmap_is_Some, lookup_lt_is_Some. split.
        -- intros Hlt. exists exp. rewrite elem_of_cons. tauto.
        -- intros (e & He & Hn & Hlt). apply elem_of_cons in He.
           destruct He as [->|He]; [exact Hlt|].
           assert (Hs : is_Some (@None value)) by (apply IH; eauto).
           destruct Hs; discriminate.
      * split; [intros [? ?]; discriminate|].
        intros (e & He & Hn & Hlt). apply elem_of_cons in He.
        destruct He as [->|He]; [congruence|].
        apply IH. eauto.
Qed.


Lemma length_chartData experiments m :
  m ≠ "" →
  length (chartData experiments m) =
    max_list ((fun exp => length (rows exp)) <$> experimentsWithMetric experiments m).
Proof.
  intros Hm. unfold chartData. destruct (decide (m = "")); [congruence|].
  destruct (decide (length (experimentsWithMetric experiments m) = 0)) as [H0|].
  - apply nil_length_inv in H0. rewrite H0. reflexivity.
  - simpl. rewrite length_fmap, length_seq. reflexivity.
Qed.

Lemma lookup_chartData experiments m i :
  m ≠ "" →
  i < max_list ((fun exp => length (rows exp)) <$> experimentsWithMetric experiments m) →
  chartData experiments m !! i =
    Some (chartPoint (experimentsWithMetric experiments m) m i).
Proof.
  intros Hm Hi. unfold chartData. destruct (decide (m = "")); [congruence|].
  destruct (decide (length (experimentsWithMetric experiments m) = 0)) as [H0|].
  - apply nil_length_inv in H0. rewrite H0 in Hi. simpl in Hi. lia.
  - simpl. rewrite list_lookup_fmap, lookup_seq_lt by exact Hi. reflexivity.
Qed.

Lemma lookup_chartData_Some experiments m i point :
  chartData experiments m !! i = Some point →
  point = chartPoint (experimentsWithMetric experiments m) m i.
Proof.
  unfold chartData. destruct (decide (m = "")); [discriminate|].
  destruct (decide (length (experimentsWithMetric experiments m) = 0));
    [discriminate|].
  simpl. rewrite list_lookup_fmap. intros H.
  apply fmap_Some in H. destruct H as (j & Hj & ->).
  apply lookup_seq in Hj. destruct Hj as [-> _]. reflexivity.
Qed.

Lemma rows_le_maxLength withMetric exp :
  exp ∈ withMetric →
  (length (rows exp) ≤ max_list ((fun exp => length (rows exp)) <$> withMetric)).
Proof.
  intros Hin. apply max_list_elem_of_le.
  apply (list_elem_of_fmap_2 (fun exp => length (rows exp))), Hin.
Qed.

Lemma lastWrite_last l1 exp l2 m i :
  (∀ e, e ∈ l2 → name e ≠ name exp) →
  lastWrite (l1 ++ exp :: l2) m i (name exp) =
    match (fun row => get row m) <$> rows exp !! i with
    | Some v => Some v
    | None => lastWrite l1 m i (name exp)
    end.
Proof.
  intros Hl2. rewrite lastWrite_app. simpl.
  rewrite (lastWrite_None l2) by exact Hl2.
  destruct (decide (name exp = name exp)); [|congruence].
  destruct (rows exp !! i); reflexivity.
Qed.

End ChartData.

(** * The series of the chart records (C1) *)

(** C1, as stated, fails: the series named in the output of [chartData] are
    not the names of the datasets whose first row holds the metric with a
    numeric value.  The dataset [expText] holds text at ["v"] in its first
    row and still is a series of the chart. *)
Lemma chartData_names_text_column :
  ¬ (∀ n, n ∈ seriesNames (chartData [expText] "v") ↔
          n ∈ name <$> filter (fun exp => firstRowNumeric "v" exp) [expText]).
Proof.
  intros H. destruct (H "A") as [H1 _].
  assert (Hin : "A" ∈ seriesNames (chartData [expText] "v")).
  { by_elem_of. }
  specialize (H1 Hin). vm_compute in H1. apply elem_of_nil in H1. exact H1.
Qed.

(** A dataset named "__proto__" leaves no key in the record: its value
    goes to the setter of [Object.prototype]. *)
Example chartData_proto_name :
  chartData [expProto] "v" = [[("index", num 0)]].
Proof. reflexivity. Qed.

(** C1, amended: for a selected (non-empty) metric, the series named in the
    output of [chartData] are exactly the names of the datasets with at
    least one row whose first row has the metric as an own key, whatever the
    type of the value there; the name "index" is the record's own index
    key and is not counted as a series, and the name "__proto__", which
    the assignment does not store as a key, is left aside. *)
Theorem chartData_names experiments m n :
  m ≠ "" → n ≠ "__proto__" →
  n ∈ seriesNames (chartData experiments m) ↔
  n ≠ "index" ∧ n ∈ name <$> experimentsWithMetric experiments m.
Proof.
  intros Hm Hproto. unfold seriesNames.
  rewrite list_elem_of_filter, list_elem_of_bind, list_elem_of_fmap.
  split.
  - intros (Hn & point & Hk & Hpoint). split; [exact Hn|].
    apply list_elem_of_lookup in Hpoint. destruct Hpoint as [i Hi].
    apply lookup_chartData_Some in Hi. subst point.
    apply elem_of_keys in Hk. rewrite own_chartPoint in Hk by exact Hproto.
    destruct (lastWrite (experimentsWithMetric experiments m) m i n) eqn:Hl.
    + destruct (proj1 (lastWrite_is_Some
                         (experimentsWithMetric experiments m) m i n))
        as (exp & Hin & Hname & _).
      { rewrite Hl. eauto. }
      exists exp. split; [congruence | exact Hin].
    + destruct (decide (n = "index")); [congruence|].
      destruct Hk; discriminate.
  - intros (Hn & exp & -> & Hin). split; [exact Hn|].
    exists (chartPoint (experimentsWithMetric experiments m) m 0).
    pose proof Hin as Hin'. apply elem_of_experimentsWithMetric in Hin'.
    destruct Hin' as [Hhas _].
    apply hasMetric_rows in Hhas. destruct Hhas as (row0 & rest & Hrows & _).
    pose proof (rows_le_maxLength _ _ Hin) as Hle.
    rewrite Hrows in Hle. simpl in Hle.
    split.
    + apply elem_of_keys. rewrite own_chartPoint by exact Hproto.
      destruct (proj2 (lastWrite_is_Some (experimentsWithMetric experiments m)
                         m 0 (name exp))) as [v ->]; [|eauto].
      exists exp. rewrite Hrows. simpl. repeat split; [exact Hin | lia].
    + apply list_elem_of_lookup. exists 0.
      apply lookup_chartData; [exact Hm | lia].
Qed.

Lemma chartData_names_witness :
  "X" ∈ seriesNames (chartData [expX; expY] "v") ↔
  "X" ≠ "index" ∧ "X" ∈ name <$> experimentsWithMetric [expX; expY] "v".
Proof.
  apply (chartData_names [expX; expY] "v" "X"); discriminate.
Defined.

(** * The aligned records (C2) *)

(** Two datasets of unequal length under the metric "v": the shorter one
    leaves no slot in the last record. *)
Example chartData_unequal_lengths :
  chartData [expX; expY] "v" =
    [[("index", num 0); ("X", num 1); ("Y", num 5)];
     [("index", num 1); ("X", num 2); ("Y", num 7)];
     [("index", num 2); ("X", num 3)]].
Proof. reflexivity. Qed.




(** * Datasets under one name (C7) *)

(** C7, as stated, fails: the records do not hold the later dataset's
    value at every index.  [expShadow], the later of the two datasets named
    "X", has one row; the record at index 1 holds 2 under "X", the value
    of [expX], where [expShadow] has none. *)
Lemma chartData_earlier_value_stays :
  ¬ (∀ i point,
       chartData [expX; expShadow] "v" !! i = Some point →
       own point (name expShadow) =
         (fun row => get row "v") <$> rows expShadow !! i).
Proof.
  intros H.
  specialize (H 1 [("index", num 1); ("X", num 2)] eq_refl).
  vm_compute in H. discriminate H.
Qed.

(** C7, amended: when two datasets that have the metric share a display
    name other than "__proto__", and no later dataset with the metric
    carries that name, every record of the output at an index where the
    later of the two has a row holds that dataset's value under the shared
    name (the last write wins), and the output has a record for each of its
    rows once a metric is selected; at an index past its rows the later
    dataset writes nothing, and when no third dataset with the metric
    carries the name (and the name is not "index") the slot is the earlier
    dataset's value there, or no slot past its rows too.  Nothing is
    raised: the output is computed for every input. *)
Theorem chartData_last_write_wins l1 d1 l2 d2 l3 m :
  hasMetric m d1 → hasMetric m d2 → name d1 = name d2 →
  name d2 ≠ "__proto__" →
  (∀ exp, exp ∈ l3 → hasMetric m exp → name exp ≠ name d2) →
  (m ≠ "" →
   length (rows d2) ≤ length (chartData (l1 ++ d1 :: l2 ++ d2 :: l3) m)) ∧
  (∀ i point row,
     chartData (l1 ++ d1 :: l2 ++ d2 :: l3) m !! i = Some point →
     rows d2 !! i = Some row →
     own point (name d2) = Some (get row m)) ∧
  (name d2 ≠ "index" →
   (∀ exp, exp ∈ l1 ++ l2 → hasMetric m exp → name exp ≠ name d2) →
   ∀ i point,
     chartData (l1 ++ d1 :: l2 ++ d2 :: l3) m !! i = Some point →
     rows d2 !! i = None →
     own point (name d2) = (fun row => get row m) <$> rows d1 !! i).
Proof.
  intros Hd1 Hd2 Hname Hproto Hl3.
  assert (Hews : experimentsWithMetric (l1 ++ d1 :: l2 ++ d2 :: l3) m =
                 (experimentsWithMetric l1 m ++ d1 :: experimentsWithMetric l2 m)
                   ++ d2 :: experimentsWithMetric l3 m).
  { unfold experimentsWithMetric.
    rewrite filter_app, filter_cons_True by exact Hd1.
    rewrite filter_app, filter_cons_True by exact Hd2.
    rewrite <- app_assoc. reflexivity. }
  assert (Hafter : ∀ e, e ∈ experimentsWithMetric l3 m → name e ≠ name d2).
  { intros e He. apply elem_of_experimentsWithMetric in He.
    destruct He as [Hhas Hin]. apply Hl3; assumption. }
  split; [|split].
  - intros Hm. rewrite length_chartData by exact Hm.
    apply rows_le_maxLength. rewrite Hews.
    apply elem_of_app. right. apply list_elem_of_here.
  - intros i point row Hpoint Hrow.
    apply lookup_chartData_Some in Hpoint. subst point.
    rewrite own_chartPoint by exact Hproto.
    rewrite Hews, lastWrite_last by exact Hafter.
    rewrite Hrow. reflexivity.
  - intros Hindex Hothers i point Hpoint Hrow.
    apply lookup_chartData_Some in Hpoint. subst point.
    rewrite own_chartPoint by exact Hproto.
    rewrite Hews, lastWrite_last by exact Hafter.
    rewrite Hrow. cbn [fmap option_fmap option_map].
    rewrite <- Hname. rewrite lastWrite_last.
    + destruct (rows d1 !! i) as [row1|]; cbn [fmap option_fmap option_map];
        [reflexivity|].
      rewrite lastWrite_None.
      * destruct (decide (name d1 = "index")); [congruence | reflexivity].
      * intros e He. apply elem_of_experimentsWithMetric in He.
        destruct He as [Hhas Hin]. rewrite Hname.
        apply Hothers; [apply elem_of_app; tauto | exact Hhas].
    + intros e He. apply elem_of_experimentsWithMetric in He.
      destruct He as [Hhas Hin]. rewrite Hname.
      apply Hothers; [apply elem_of_app; tauto | exact Hhas].
Qed.

Lemma chartData_last_write_wins_witness :
  (∃ point,
     chartData [expX; expY; expShadow] "v" !! 0 = Some point ∧
     own point "X" = Some (num 5)) ∧
  (∃ point,
     chartData [expX; expY; expShadow] "v" !! 1 = Some point ∧
     own point "X" = Some (num 2)).
Proof.
  destruct (chartData_last_write_wins [] expX [expY] expShadow [] "v")
    as (_ & Hlast & Hpast).
  - vm_compute. exact I.
  - vm_compute. exact I.
  - reflexivity.
  - discriminate.
  - intros exp Hin. apply elem_of_nil in Hin. destruct Hin.
  - split.
    + eexists. split; [reflexivity|].
      apply (Hlast 0 _ [("t", num 0); ("v", num 5)]); reflexivity.
    + exists [("index", num 1); ("X", num 2); ("Y", num 7)].
      split; [reflexivity|].
      refine (Hpast _ _ 1 [("index", num 1); ("X", num 2); ("Y", num 7)]
                eq_refl eq_refl).
      * discriminate.
      * intros exp Hin. apply list_elem_of_singleton in Hin. subst exp.
        intros _. discriminate.
Defined.

(** * The stroke colors (C9) *)

Lemma colors_cycle_neq i : colors !! (i mod 6) ≠ colors !! (S i mod 6).
Proof.
  pose proof (Nat.mod_upper_bound i 6) as Hlt.
  replace (S i) with (i mod 6 + (1 + 6 * (i / 6)))
    by (pose proof (Nat.div_mod_eq i 6); lia).
  rewrite Nat.add_assoc, Nat.mul_comm, Nat.Div0.mod_add.
  destruct (i mod 6) as [|[|[|[|[|[|k]]]]]]; [discriminate.. | lia].
Qed.

(** With a metric selected the chart is rendered as soon as some
    experiment has the metric, so the lines are those of all of them. *)
Lemma chartLines_rendered experiments m :
  m ≠ "" →
  chartLines experiments m =
    imap (fun index exp =>
            {| key := id exp; dataKey := name exp;
               stroke := colors !! (index mod length colors) |})
         (experimentsWithMetric experiments m).
Proof.
  intros Hm. unfold chartLines.
  destruct (decide (0 < length (chartData experiments m))) as [|Hempty];
    [reflexivity|].
  rewrite length_chartData in Hempty by exact Hm.
  destruct (experimentsWithMetric experiments m) as [|exp rest] eqn:Hews;
    [reflexivity|].
  exfalso. apply Hempty.
  assert (Hin : exp ∈ experimentsWithMetric experiments m)
    by (rewrite Hews; apply list_elem_of_here).
  pose proof (rows_le_maxLength _ _ Hin) as Hle. rewrite Hews in Hle.
  apply elem_of_experimentsWithMetric in Hin. destruct Hin as [Hhas _].
  apply hasMetric_rows in Hhas. destruct Hhas as (row0 & rs & Hrows & _).
  rewrite Hrows in Hle. simpl in Hle. simpl. lia.
Qed.

Lemma lookup_chartLines experiments m i :
  m ≠ "" →
  chartLines experiments m !! i =
    (fun exp => {| key := id exp; dataKey := name exp;
                   stroke := colors !! (i mod 6) |})
      <$> experimentsWithMetric experiments m !! i.
Proof.
  intros Hm. rewrite (chartLines_rendered experiments m Hm).
  rewrite list_lookup_imap. reflexivity.
Qed.

(** A line that is rendered stands for the experiment at its position. *)
Lemma lookup_chartLines_Some experiments m i line :
  chartLines experiments m !! i = Some line →
  ∃ exp, experimentsWithMetric experiments m !! i = Some exp ∧
         line = {| key := id exp; dataKey := name exp;
                   stroke := colors !! (i mod 6) |}.
Proof.
  unfold chartLines.
  destruct (decide (0 < length (chartData experiments m))); [|discriminate].
  rewrite list_lookup_imap. intros H. apply fmap_Some in H.
  destruct H as (exp & Hexp & ->). eauto.
Qed.

(** C9: the palette has 6 colors; every line of the chart is drawn with
    the palette entry at index [i mod 6], [i] its position among the lines,
    and that entry exists; the lines are rendered with the chart, and once
    a metric is selected the i-th line stands for the i-th dataset that has
    the metric, the strokes are a function of the positions alone, and
    exchanging two neighbouring series exchanges their colors, which
    differ. *)
Theorem chartLines_stroke experiments m :
  length colors = 6 ∧
  (∀ i line, chartLines experiments m !! i = Some line →
     ∃ color, colors !! (i mod 6) = Some color ∧ stroke line = Some color) ∧
  (m ≠ "" →
   (∀ i exp, experimentsWithMetric experiments m !! i = Some exp →
      ∃ color, colors !! (i mod 6) = Some color ∧
        chartLines experiments m !! i =
          Some {| key := id exp; dataKey := name exp;
                  stroke := Some color |}) ∧
   stroke <$> chartLines experiments m =
     (fun i => colors !! (i mod 6))
       <$> seq 0 (length (experimentsWithMetric experiments m)) ∧
   (∀ l1 a b l2, experiments = l1 ++ a :: b :: l2 →
      hasMetric m a → hasMetric m b →
      ∃ i ca cb,
        ca ≠ cb ∧
        chartLines experiments m !! i =
          Some {| key := id a; dataKey := name a; stroke := Some ca |} ∧
        chartLines experiments m !! S i =
          Some {| key := id b; dataKey := name b; stroke := Some cb |} ∧
        chartLines (l1 ++ b :: a :: l2) m !! i =
          Some {| key := id b; dataKey := name b; stroke := Some ca |} ∧
        chartLines (l1 ++ b :: a :: l2) m !! S i =
          Some {| key := id a; dataKey := name a; stroke := Some cb |})).
Proof.
  assert (Hcolor : ∀ i, ∃ color, colors !! (i mod 6) = Some color).
  { intros i. apply lookup_lt_is_Some. apply (Nat.mod_upper_bound i 6). lia. }
  split; [reflexivity|]. split.
  { intros i line Hline. apply lookup_chartLines_Some in Hline.
    destruct Hline as (exp & _ & ->). destruct (Hcolor i) as [color Hc].
    exists color. split; [exact Hc|]. simpl. exact Hc. }
  intros Hm. split; [|split].
  - intros i exp Hexp. destruct (Hcolor i) as [color Hc].
    exists color. split; [exact Hc|].
    rewrite lookup_chartLines, Hexp, Hc by exact Hm. reflexivity.
  - apply list_eq. intros i.
    rewrite !list_lookup_fmap, lookup_chartLines by exact Hm.
    destruct (experimentsWithMetric experiments m !! i) as [exp|] eqn:Hexp.
    + rewrite lookup_seq_lt by (eapply lookup_lt_Some, Hexp). reflexivity.
    + rewrite lookup_seq_ge by (apply lookup_ge_None, Hexp). reflexivity.
  - intros l1 a b l2 -> Ha Hb.
    destruct (Hcolor (length (experimentsWithMetric l1 m))) as [ca Hca].
    destruct (Hcolor (S (length (experimentsWithMetric l1 m)))) as [cb Hcb].
    exists (length (experimentsWithMetric l1 m)), ca, cb.
    split.
    { intros ->. apply (colors_cycle_neq (length (experimentsWithMetric l1 m))).
      congruence. }
    rewrite !lookup_chartLines, Hca, Hcb by exact Hm.
    unfold experimentsWithMetric.
    rewrite !filter_app, !filter_cons_True by assumption.
    rewrite !lookup_app_r by lia.
    replace (S (length (filter (fun exp => hasMetric m exp) l1))
             - length (filter (fun exp => hasMetric m exp) l1)) with 1 by lia.
    rewrite Nat.sub_diag. simpl. tauto.
Qed.

Lemma chartLines_stroke_witness :
  ∃ i ca cb,
    ca ≠ cb ∧
    chartLines [expX; expY] "v" !! i =
      Some {| key := "x"; dataKey := "X"; stroke := Some ca |} ∧
    chartLines [expX; expY] "v" !! S i =
      Some {| key := "y"; dataKey := "Y"; stroke := Some cb |} ∧
    chartLines [expY; expX] "v" !! i =
      Some {| key := "y"; dataKey := "Y"; stroke := Some ca |} ∧
    chartLines [expY; expX] "v" !! S i =
      Some {| key := "x"; dataKey := "X"; stroke := Some cb |}.
Proof.
  destruct (chartLines_stroke [expX; expY] "v") as (_ & _ & H).
  destruct H as (_ & _ & H); [discriminate|].
  apply (H [] expX expY []).
  - reflexivity.
  - vm_compute. exact I.
  - vm_compute. exact I.
Defined.

(** Without a metric no line is rendered, whatever the columns are. *)
Example chartLines_no_metric :
  chartLines [{| id := "e"; name := "E"; data := Some [[("", num 1)]] |}] ""
  = [].
Proof. reflexivity. Qed.

(** * The summary statistics (C3, C4, C8) *)

Section SummaryFacts.

Variable Math_pow : float -> float -> float.

Implicit Types (experiments : list Experiment) (exp : Experiment) (m : string).

Lemma metricValues_cons m row (d : list obj) :
  metricValues m (row :: d) =
    match get row m with
    | VNum x => x :: metricValues m d
    | _ => metricValues m d
    end.
Proof. unfold metricValues. destruct (get row m) eqn:Hv; cbn; rewrite Hv; reflexivity. Qed.

(** The kept values are those of the rows holding a number at the metric. *)
Lemma metricValues_keepNumeric m (d : list obj) :
  metricValues m (filter (fun row => is_number (get row m)) d) = metricValues m d.
Proof.
  induction d as [|row d IH]; [reflexivity|].
  rewrite filter_cons, (metricValues_cons m row d).
  destruct (decide (is_number (get row m))) as [Hn|Hn].
  - rewrite metricValues_cons, IH. reflexivity.
  - rewrite IH. destruct (get row m); try reflexivity.
    exfalso. apply Hn. exact I.
Qed.

Lemma length_metricValues m (d : list obj) :
  length (metricValues m d) = length (filter (fun row => is_number (get row m)) d).
Proof.
  induction d as [|row d IH]; [reflexivity|].
  rewrite filter_cons, metricValues_cons.
  destruct (decide (is_number (get row m))) as [Hn|Hn];
    destruct (get row m); simpl in *; rewrite ?IH; try reflexivity;
    try (destruct Hn; fail).
  exfalso. apply Hn. exact I.
Qed.

Lemma lookup_summaryStatistics experiments m i row :
  summaryStatistics Math_pow experiments m !! i = Some row →
  ∃ exp, experimentsWithMetric experiments m !! i = Some exp ∧
         row = summaryRow Math_pow m exp.
Proof.
  unfold summaryStatistics. destruct (decide (m = "")); [discriminate|].
  rewrite list_lookup_fmap. intros H. apply fmap_Some in H.
  destruct H as (exp & Hexp & ->). eauto.
Qed.

Lemma length_summaryStatistics experiments m :
  m ≠ "" →
  length (summaryStatistics Math_pow experiments m) =
    length (experimentsWithMetric experiments m).
Proof.
  intros Hm. unfold summaryStatistics.
  destruct (decide (m = "")); [congruence|]. apply length_fmap.
Qed.

Lemma summaryRow_empty m exp :
  metricValues m (rows exp) = [] →
  summaryRow Math_pow m exp =
    {| rowKey := id exp; rowName := name exp; count := 0;
       min := infinity; max := neg_infinity; avg := nan; stdDev := nan |}.
Proof. unfold summaryRow. intros ->. reflexivity. Qed.

End SummaryFacts.

(** C3, as stated, fails: for [expText], which has the metric and no number
    under it, the minimum reported is not a NaN. *)
Lemma summaryStatistics_empty_min_not_nan :
  ¬ (∀ Math_pow row,
       row ∈ summaryStatistics Math_pow [expText] "v" → count row = 0 →
       PrimFloat.is_nan (min row) = true ∧ PrimFloat.is_nan (max row) = true ∧
       PrimFloat.is_nan (avg row) = true ∧ PrimFloat.is_nan (stdDev row) = true).
Proof.
  intros H.
  destruct (H squarePow
              {| rowKey := "a"; rowName := "A"; count := 0;
                 min := infinity; max := neg_infinity;
                 avg := nan; stdDev := nan |}) as [Hmin _].
  - by_elem_of.
  - reflexivity.
  - vm_compute in Hmin. discriminate Hmin.
Qed.

(** C3, amended: the table is computed for every input; a row of it whose
    count is zero reports the mean and the standard deviation as NaN, the
    minimum as +infinity and the maximum as -infinity. *)
Theorem summaryStatistics_empty Math_pow experiments m row :
  row ∈ summaryStatistics Math_pow experiments m → count row = 0 →
  min row = infinity ∧ max row = neg_infinity ∧
  avg row = nan ∧ stdDev row = nan ∧
  PrimFloat.is_nan (avg row) = true ∧ PrimFloat.is_nan (stdDev row) = true.
Proof.
  intros Hin Hcount. apply list_elem_of_lookup in Hin. destruct Hin as [i Hi].
  apply lookup_summaryStatistics in Hi. destruct Hi as (exp & _ & ->).
  simpl in Hcount. apply nil_length_inv in Hcount.
  rewrite (summaryRow_empty Math_pow m exp Hcount). simpl.
  repeat split; reflexivity.
Qed.

Lemma summaryStatistics_empty_witness :
  ∃ row, summaryStatistics squarePow [expX; expText] "v" !! 1 = Some row ∧
         min row = infinity ∧ max row = neg_infinity ∧
         avg row = nan ∧ stdDev row = nan.
Proof.
  exists {| rowKey := "a"; rowName := "A"; count := 0;
            min := infinity; max := neg_infinity; avg := nan; stdDev := nan |}.
  split; [reflexivity|].
  destruct (summaryStatistics_empty squarePow [expX; expText] "v"
              {| rowKey := "a"; rowName := "A"; count := 0;
                 min := infinity; max := neg_infinity;
                 avg := nan; stdDev := nan |})
    as (Hmin & Hmax & Havg & Hsd & _).
  - by_elem_of.
  - reflexivity.
  - exact (conj Hmin (conj Hmax (conj Havg Hsd))).
Defined.

(** C4: the table has one row per dataset that has the metric, in their
    order; the count of the row is the number of rows of the dataset whose
    value at the metric is a number, and the whole row is the one computed
    from the dataset with every other row removed. *)
Theorem summaryStatistics_count Math_pow experiments m :
  (m ≠ "" →
   length (summaryStatistics Math_pow experiments m) =
     length (experimentsWithMetric experiments m)) ∧
  ∀ i row, summaryStatistics Math_pow experiments m !! i = Some row →
    ∃ exp, experimentsWithMetric experiments m !! i = Some exp ∧
      rowName row = name exp ∧
      count row =
        length (filter (fun r => is_number (get r m)) (rows exp)) ∧
      row = summaryRow Math_pow m (keepNumeric m exp).
Proof.
  split; [apply length_summaryStatistics|].
  intros i row Hrow. apply lookup_summaryStatistics in Hrow.
  destruct Hrow as (exp & Hexp & ->). exists exp.
  split; [exact Hexp|]. split; [reflexivity|]. split.
  - simpl. apply length_metricValues.
  - unfold summaryRow, keepNumeric, rows. simpl.
    fold (rows exp). rewrite metricValues_keepNumeric. reflexivity.
Qed.

(** A dataset with text in one row of a numeric column. *)
Lemma summaryStatistics_count_witness :
  ∃ row,
    summaryStatistics squarePow
      [{| id := "m"; name := "M";
          data := Some [[("v", num 4)]; [("v", VStr "n/a")]; [("v", num 6)]] |}]
      "v" !! 0 = Some row ∧
    count row = 2 ∧ avg row = 5%float.
Proof.
  eexists. split; [reflexivity|].
  destruct (summaryStatistics_count squarePow
              [{| id := "m"; name := "M";
                  data := Some [[("v", num 4)]; [("v", VStr "n/a")];
                                [("v", num 6)]] |}] "v") as [Hlen Hrow].
  destruct (Hrow 0 _ eq_refl) as (exp & Hexp & _ & Hcount & _).
  injection Hexp as <-. split; [exact Hcount | reflexivity].
Defined.

Set Warnings "-inexact-float".

(** C8: for the dataset X with rows {t:0,v:1}, {t:1,v:2}, {t:2,v:3} and the
    metric "v" the table has the single row with count 3, minimum 1,
    maximum 3, mean 2 and, as standard deviation, the double-precision
    square root of ((1-2)^2 + (2-2)^2 + (3-2)^2) / 3, the sum of squares
    divided by the count 3; that number lies between 0.8164 and 0.8166 and
    is kept unrounded.  [Math.pow] is asked for the squares of -1, 0 and 1
    only, which are exact. *)
Theorem summaryStatistics_scenario_B Math_pow :
  Math_pow (-1)%float 2%float = 1%float →
  Math_pow 0%float 2%float = 0%float →
  Math_pow 1%float 2%float = 1%float →
  summaryStatistics Math_pow [expX] "v" =
    [{| rowKey := "x"; rowName := "X"; count := 3;
        min := 1; max := 3; avg := 2;
        stdDev := Math_sqrt (((1 - 2) * (1 - 2) + (2 - 2) * (2 - 2)
                              + (3 - 2) * (3 - 2)) / 3)%float |}] ∧
  (0.8164 <? Math_sqrt (((1 - 2) * (1 - 2) + (2 - 2) * (2 - 2)
                         + (3 - 2) * (3 - 2)) / 3))%float = true ∧
  (Math_sqrt (((1 - 2) * (1 - 2) + (2 - 2) * (2 - 2)
               + (3 - 2) * (3 - 2)) / 3) <? 0.8166)%float = true.
Proof.
  intros Hneg Hzero Hone. split; [|split; reflexivity].
  unfold summaryStatistics. destruct (decide ("v" = "")); [discriminate|].
  assert (Hwith : experimentsWithMetric [expX] "v" = [expX]) by reflexivity.
  assert (Hvalues : metricValues "v" (rows expX) = [1; 2; 3]%float)
    by reflexivity.
  assert (Hcount : of_nat 3 = 3%float) by reflexivity.
  assert (Havg : ((0 + 1 + 2 + 3) / 3 = 2)%float) by reflexivity.
  assert (Hd1 : (1 - 2 = -1)%float) by reflexivity.
  assert (Hd2 : (2 - 2 = 0)%float) by reflexivity.
  assert (Hd3 : (3 - 2 = 1)%float) by reflexivity.
  rewrite Hwith. cbn [fmap list_fmap]. unfold summaryRow. rewrite Hvalues.
  cbn [foldl length]. rewrite Hcount, Havg.
  rewrite !Hd1, !Hd2, !Hd3, Hneg, Hzero, Hone. reflexivity.
Qed.

Lemma summaryStatistics_scenario_B_witness :
  stdDev <$> summaryStatistics squarePow [expX] "v" =
    [Math_sqrt (((1 - 2) * (1 - 2) + (2 - 2) * (2 - 2)
                 + (3 - 2) * (3 - 2)) / 3)%float].
Proof.
  destruct (summaryStatistics_scenario_B squarePow) as [Htable _];
    [reflexivity..|].
  rewrite Htable. reflexivity.
Defined.

Set Warnings "+inexact-float".

(** * The numeric columns (C5) *)

Section NumericColumns.

Implicit Types (experiments : list Experiment) (d exp : Experiment).
Implicit Types (k : string) (row : obj).

Lemma is_number_get row k :
  is_number (get row k) ↔ ∃ x, own row k = Some (VNum x).
Proof.
  unfold get. destruct (own row k) as [ [ x | s | b | | ] | ]; simpl;
    (split; [intros H; try destruct H; eauto
            | intros [x' Hx]; try discriminate Hx; exact I]).
Qed.

Lemma firstRowNumeric_spec k d :
  firstRowNumeric k d ↔
  ∃ row0 rest x, data d = Some (row0 :: rest) ∧ own row0 k = Some (VNum x).
Proof.
  unfold firstRowNumeric. destruct (data d) as [[|row0 rest]|].
  - split; [intros [] | intros (? & ? & ? & H & _); discriminate H].
  - rewrite andb_True, is_number_get. split.
    + intros [_ [x Hx]]. eauto.
    + intros (r & rs & x & Heq & Hx). injection Heq as <- <-.
      split; [|eauto]. apply Is_true_true_2, hasOwnProperty_true. eauto.
  - split; [intros [] | intros (? & ? & ? & H & _); discriminate H].
Qed.

Lemma elem_of_Set_add (columns : list string) key k :
  k ∈ Set_add columns key ↔ k ∈ columns ∨ k = key.
Proof.
  unfold Set_add. destruct (decide (key ∈ columns)) as [Hin|Hnin].
  - split; [tauto | intros [? | ->]; assumption].
  - rewrite elem_of_app, list_elem_of_singleton. tauto.
Qed.

(** The inner loop of [allDataColumns], over the keys of one first row. *)
Lemma elem_of_add_numeric_keys row0 (ks columns : list string) k :
  k ∈ foldl (fun columns key =>
               if is_number (get row0 key) then Set_add columns key else columns)
            columns ks ↔
  k ∈ columns ∨ (k ∈ ks ∧ is_number (get row0 k)).
Proof.
  revert columns. induction ks as [|k0 ks IH]; intros columns; simpl.
  - rewrite elem_of_nil. tauto.
  - rewrite IH, elem_of_cons.
    destruct (is_number (get row0 k0)) eqn:Hk0.
    + rewrite elem_of_Set_add. split.
      * intros [[? | ->]|?]; [tauto| |tauto].
        right. split; [tauto|]. rewrite Hk0. exact I.
      * intros [? | [[-> | ?] ?]]; tauto.
    + split; [tauto|]. intros [? | [[-> | ?] Hn]]; [tauto| |tauto].
      rewrite Hk0 in Hn. destruct Hn.
Qed.

Lemma elem_of_allDataColumns_from experiments (columns : list string) k :
  k ∈ foldl (fun columns exp =>
               match data exp with
               | Some (row0 :: _) =>
                   foldl (fun columns key =>
                            if is_number (get row0 key)
                            then Set_add columns key else columns)
                         columns (keys row0)
               | _ => columns
               end) columns experiments ↔
  k ∈ columns ∨ ∃ exp, exp ∈ experiments ∧ firstRowNumeric k exp.
Proof.
  revert columns. induction experiments as [|d rest IH]; intros columns; simpl.
  - split; [tauto|]. intros [?|(e & He & _)]; [assumption|].
    apply elem_of_nil in He. destruct He.
  - rewrite IH. clear IH.
    assert (Hstep :
      k ∈ match data d with
          | Some (row0 :: _) =>
              foldl (fun columns key =>
                       if is_number (get row0 key)
                       then Set_add columns key else columns)
                    columns (keys row0)
          | _ => columns
          end ↔ k ∈ columns ∨ firstRowNumeric k d).
    { unfold firstRowNumeric. destruct (data d) as [[|row0 rs]|];
        [split; [tauto | intros [? | []]; assumption]
        | | split; [tauto | intros [? | []]; assumption]].
      rewrite elem_of_add_numeric_keys, elem_of_keys, andb_True.
      rewrite <- hasOwnProperty_true, (Is_true_true (hasOwnProperty row0 k)).
      tauto. }
    rewrite Hstep. split.
    + intros [[?|Hd]|(e & He & Hn)]; [tauto| |].
      * right. exists d. split; [apply list_elem_of_here | exact Hd].
      * right. exists e. split; [apply list_elem_of_further, He | exact Hn].
    + intros [?|(e & He & Hn)]; [tauto|].
      apply elem_of_cons in He. destruct He as [->|He]; [tauto|].
      right. eauto.
Qed.

(** The metrics offered by the comparison panel: the columns numeric in the
    first row of some dataset. *)
Lemma elem_of_allDataColumns experiments k :
  k ∈ allDataColumns experiments ↔
  ∃ exp, exp ∈ experiments ∧ firstRowNumeric k exp.
Proof.
  unfold allDataColumns. rewrite elem_of_allDataColumns_from, elem_of_nil. tauto.
Qed.

Lemma findExperiment_Some experiments sel d :
  findExperiment experiments sel = Some d →
  d ∈ experiments ∧ hasData d ∧ id d = sel.
Proof.
  unfold findExperiment. intros H. apply fmap_Some in H.
  destruct H as ([i e] & Hfind & ->). simpl.
  apply list_find_Some in Hfind. destruct Hfind as (Hi & Hid & _).
  apply list_elem_of_lookup_2 in Hi. unfold experimentsWithData in Hi.
  apply list_elem_of_filter in Hi. tauto.
Qed.

Lemma findExperiment_None experiments sel :
  (∀ exp, exp ∈ experiments → id exp = sel → rows exp = []) →
  findExperiment experiments sel = None.
Proof.
  intros Hempty. unfold findExperiment.
  destruct (list_find _ _) as [[i e]|] eqn:Hfind; [|reflexivity].
  apply list_find_Some in Hfind. destruct Hfind as (Hi & Hid & _).
  apply list_elem_of_lookup_2 in Hi. unfold experimentsWithData in Hi.
  apply list_elem_of_filter in Hi. destruct Hi as [Hdata Hin].
  specialize (Hempty e Hin Hid). unfold hasData in Hdata. unfold rows in Hempty.
  destruct (data e) as [[|r rs]|]; simpl in *; try destruct Hdata.
  discriminate Hempty.
Qed.

Lemma findExperiment_singleton d :
  findExperiment [d] (id d) = if hasData d then Some d else None.
Proof.
  unfold findExperiment, experimentsWithData. rewrite filter_cons, filter_nil.
  destruct (decide (hasData d)) as [Hd|Hd].
  - rewrite (Is_true_true_1 _ Hd). simpl.
    destruct (decide (id d = id d)); [reflexivity | congruence].
  - destruct (hasData d); [destruct Hd; exact I | reflexivity].
Qed.

Lemma availableColumns_singleton d :
  id d ≠ "" →
  availableColumns [d] (id d) =
    match data d with
    | Some (row0 :: _) => filter (fun key => is_number (get row0 key)) (keys row0)
    | _ => []
    end.
Proof.
  intros Hid. unfold availableColumns.
  destruct (decide (id d = "")); [congruence|].
  rewrite findExperiment_singleton. unfold hasData.
  destruct (data d) as [[|row0 rs]|] eqn:Hd; simpl; rewrite ?Hd; reflexivity.
Qed.

End NumericColumns.

(** C5: the numeric columns of a dataset, as the comparison panel computes
    them for the dataset alone and as the plot panel computes them for the
    dataset selected (a selection is a non-empty id), are exactly the keys
    holding a number in its first row; a dataset without rows has none;
    and a further row at the end of a dataset with rows changes nothing. *)
Theorem numericColumns_first_row (d : Experiment) :
  ((∀ k, k ∈ allDataColumns [d] ↔
         ∃ row0 rest x, data d = Some (row0 :: rest) ∧ own row0 k = Some (VNum x)) ∧
   (rows d = [] → allDataColumns [d] = []) ∧
   (∀ extra, rows d ≠ [] →
             allDataColumns [appendRow d extra] = allDataColumns [d])) ∧
  (id d ≠ "" →
   (∀ k, k ∈ availableColumns [d] (id d) ↔
         ∃ row0 rest x, data d = Some (row0 :: rest) ∧ own row0 k = Some (VNum x)) ∧
   (rows d = [] → availableColumns [d] (id d) = []) ∧
   (∀ extra, rows d ≠ [] →
             availableColumns [appendRow d extra] (id d)
             = availableColumns [d] (id d))).
Proof.
  split; [split; [|split]|].
  - intros k. rewrite elem_of_allDataColumns, <- firstRowNumeric_spec. split.
    + intros (e & He & Hn). apply list_elem_of_singleton in He. congruence.
    + intros Hn. exists d. split; [apply list_elem_of_here | exact Hn].
  - unfold rows, allDataColumns. simpl.
    destruct (data d) as [[|r rs]|]; simpl; intros H;
      [reflexivity | discriminate H | reflexivity].
  - intros extra. unfold rows, allDataColumns, appendRow. simpl. unfold rows.
    destruct (data d) as [[|r rs]|]; simpl; intros H;
      [congruence | reflexivity | congruence].
  - intros Hid. split; [|split].
    + intros k. rewrite (availableColumns_singleton d Hid).
      destruct (data d) as [[|row0 rs]|].
      * rewrite elem_of_nil. split; [tauto|].
        intros (? & ? & ? & H & _). discriminate H.
      * rewrite list_elem_of_filter, is_number_get. split.
        -- intros [[x Hx] _]. eauto.
        -- intros (r & rs' & x & Heq & Hx). injection Heq as <- <-.
           split; [eauto|]. apply elem_of_keys. eauto.
      * rewrite elem_of_nil. split; [tauto|].
        intros (? & ? & ? & H & _). discriminate H.
    + rewrite (availableColumns_singleton d Hid). unfold rows.
      destruct (data d) as [[|r rs]|]; simpl; intros H;
        [reflexivity | discriminate H | reflexivity].
    + intros extra Hrows.
      change (id d) with (id (appendRow d extra)) at 1.
      rewrite (availableColumns_singleton (appendRow d extra)) by exact Hid.
      rewrite (availableColumns_singleton d Hid).
      unfold appendRow, rows in *. simpl.
      destruct (data d) as [[|r rs]|]; simpl in *;
        [congruence | reflexivity | congruence].
Qed.

Lemma numericColumns_first_row_witness :
  availableColumns [expX] "x" = ["t"; "v"] ∧
  availableColumns [appendRow expX [("t", VStr "late"); ("v", VNull)]] "x"
  = availableColumns [expX] "x".
Proof.
  split; [reflexivity|].
  destruct (numericColumns_first_row expX) as [_ H].
  destruct H as (_ & _ & Happend); [discriminate|].
  apply Happend. discriminate.
Defined.

(** * The plot records (C6, C10) *)

Section PlotData.

Implicit Types (experiments : list Experiment) (d : Experiment).
Implicit Types (sel x y k : string) (row : obj) (i : nat).

(** The record of a row, key by key: the fields of the row come last and
    win over the index and the two axis entries. *)
Lemma own_plotRecord x y i row k :
  own (plotRecord x y i row) k =
    match own row k with
    | Some v => Some v
    | None =>
        if decide (y = k) then Some (get row y)
        else if decide (x = k) then Some (get row x)
        else if decide ("index" = k) then Some (VNum (of_nat i))
        else None
    end.
Proof. unfold plotRecord. rewrite own_spread, !own_put. reflexivity. Qed.

Lemma plotData_selected experiments sel x y d :
  sel ≠ "" → x ≠ "" → y ≠ "" → findExperiment experiments sel = Some d →
  plotData experiments sel x y = imap (plotRecord x y) (rows d).
Proof.
  intros Hsel Hx Hy Hfind. unfold plotData.
  destruct (decide (sel = "" ∨ x = "" ∨ y = "")) as [[?|[?|?]]|_];
    [congruence..|].
  rewrite Hfind. apply findExperiment_Some in Hfind.
  destruct Hfind as (_ & Hdata & _). unfold hasData in Hdata. unfold rows.
  destruct (data d) as [rs|]; [reflexivity | destruct Hdata].
Qed.

Lemma lookup_plotData experiments sel x y d i row :
  sel ≠ "" → x ≠ "" → y ≠ "" → findExperiment experiments sel = Some d →
  rows d !! i = Some row →
  plotData experiments sel x y !! i = Some (plotRecord x y i row).
Proof.
  intros Hsel Hx Hy Hfind Hrow.
  rewrite (plotData_selected _ _ _ _ d Hsel Hx Hy Hfind).
  rewrite list_lookup_imap, Hrow. reflexivity.
Qed.

End PlotData.

(** C6, as stated, fails: the record of a row does not always contain the
    zero-based row index.  The rows of [expIndexed] have a column "index";
    the record of row 0 holds 7 there. *)
Lemma plotData_index_not_positional :
  ¬ (∀ i record,
       plotData [expIndexed] "i" "v" "v" !! i = Some record →
       own record "index" = Some (VNum (of_nat i))).
Proof.
  intros H. specialize (H 0 [("index", num 7); ("v", num 1)] eq_refl).
  vm_compute in H. num_discriminate H.
Qed.

(** C6, amended: without a selection of a dataset and of both axes, or when
    the selected dataset has no rows, the plot data is empty; otherwise it has one
    record per row of the selected dataset, in the order of the rows, and
    the record of row [i] holds the row's value at the x column and at the y
    column, every field of the row with its value, no key beyond "index",
    the two columns and the row's own keys, and under "index" the position
    [i], provided neither axis is "index" and the row has no field
    "index" of its own. *)
Theorem plotData_records experiments sel x y :
  (sel = "" ∨ x = "" ∨ y = "" → plotData experiments sel x y = []) ∧
  ((∀ exp, exp ∈ experiments → id exp = sel → rows exp = []) →
   plotData experiments sel x y = []) ∧
  (∀ d, sel ≠ "" → x ≠ "" → y ≠ "" →
     findExperiment experiments sel = Some d →
     length (plotData experiments sel x y) = length (rows d) ∧
     ∀ i row, rows d !! i = Some row →
       ∃ record,
         plotData experiments sel x y !! i = Some record ∧
         get record x = get row x ∧
         get record y = get row y ∧
         (∀ k v, own row k = Some v → own record k = Some v) ∧
         (∀ k, is_Some (own record k) →
               k = "index" ∨ k = x ∨ k = y ∨ is_Some (own row k)) ∧
         (x ≠ "index" → y ≠ "index" → own row "index" = None →
          own record "index" = Some (VNum (of_nat i)))).
Proof.
  split; [|split].
  - intros Hxy. unfold plotData.
    destruct (decide (sel = "" ∨ x = "" ∨ y = "")) as [|Hn];
      [reflexivity | tauto].
  - intros Hempty. unfold plotData.
    destruct (decide (sel = "" ∨ x = "" ∨ y = "")); [reflexivity|].
    rewrite (findExperiment_None _ _ Hempty). reflexivity.
  - intros d Hsel Hx Hy Hfind. split.
    + rewrite (plotData_selected _ _ _ _ d Hsel Hx Hy Hfind).
      apply length_imap.
    + intros i row Hrow. exists (plotRecord x y i row).
      split; [apply (lookup_plotData _ _ _ _ d); assumption|].
      repeat split.
      * unfold get at 1. rewrite own_plotRecord.
        destruct (own row x) as [v|] eqn:Hv; [symmetry; apply own_get, Hv|].
        destruct (decide (y = x)) as [->|]; [reflexivity|].
        destruct (decide (x = x)); [reflexivity | congruence].
      * unfold get at 1. rewrite own_plotRecord.
        destruct (own row y) as [v|] eqn:Hv; [symmetry; apply own_get, Hv|].
        destruct (decide (y = y)); [reflexivity | congruence].
      * intros k v Hk. rewrite own_plotRecord, Hk. reflexivity.
      * intros k. rewrite own_plotRecord.
        destruct (own row k) as [v|]; [eauto|].
        destruct (decide (y = k)); [auto|].
        destruct (decide (x = k)); [auto|].
        destruct (decide ("index" = k)); [auto|].
        intros [? ?]; discriminate.
      * intros Hxi Hyi Hnone. rewrite own_plotRecord, Hnone.
        destruct (decide (y = "index")); [congruence|].
        destruct (decide (x = "index")); [congruence|].
        destruct (decide ("index" = "index")); [reflexivity | congruence].
Qed.

Lemma plotData_records_witness :
  length (plotData [expX; expY] "y" "t" "v") = 2 ∧
  ∃ record,
    plotData [expX; expY] "y" "t" "v" !! 1 = Some record ∧
    get record "t" = num 1 ∧ get record "v" = num 7 ∧
    own record "index" = Some (num 1).
Proof.
  destruct (plotData_records [expX; expY] "y" "t" "v") as (_ & _ & H).
  destruct (H expY) as [Hlen Hrec]; [discriminate.. | reflexivity |].
  split; [exact Hlen|].
  destruct (Hrec 1 [("t", num 1); ("v", num 7)] eq_refl)
    as (record & Hrecord & Hx & Hy & _ & _ & Hindex).
  exists record. split; [exact Hrecord|]. split; [exact Hx|].
  split; [exact Hy|]. apply Hindex; [discriminate.. | reflexivity].
Defined.

(** C10: when a row of the selected dataset has a field "index" of its
    own, the record of that row holds the row's value under "index", not
    the position of the row. *)
Theorem plotData_index_from_row experiments sel x y d i row v :
  sel ≠ "" → x ≠ "" → y ≠ "" →
  findExperiment experiments sel = Some d →
  rows d !! i = Some row →
  own row "index" = Some v →
  ∃ record,
    plotData experiments sel x y !! i = Some record ∧
    own record "index" = Some v.
Proof.
  intros Hsel Hx Hy Hfind Hrow Hindex.
  exists (plotRecord x y i row).
  split; [apply (lookup_plotData _ _ _ _ d); assumption|].
  rewrite own_plotRecord, Hindex. reflexivity.
Qed.

Lemma plotData_index_from_row_witness :
  ∃ record,
    plotData [expX; expIndexed] "i" "v" "v" !! 1 = Some record ∧
    own record "index" = Some (num 9).
Proof.
  apply (plotData_index_from_row [expX; expIndexed] "i" "v" "v" expIndexed 1
           [("index", num 9); ("v", num 2)]);
    [discriminate.. | reflexivity | reflexivity | reflexivity].
Defined.

(** * More on the comparison panel *)

Section ComparisonFacts.

Implicit Types (experiments : list Experiment) (exp : Experiment).
Implicit Types (m k : string).

Lemma NoDup_Set_add (columns : list string) key :
  NoDup columns → NoDup (Set_add columns key).
Proof.
  intros Hnd. unfold Set_add. destruct (decide (key ∈ columns)); [exact Hnd|].
  apply NoDup_app. split; [exact Hnd|]. split.
  - intros x Hx Hin. apply list_elem_of_singleton in Hin. congruence.
  - apply NoDup_singleton.
Qed.

Lemma NoDup_add_numeric_keys row0 (ks columns : list string) :
  NoDup columns →
  NoDup (foldl (fun columns key =>
                  if is_number (get row0 key) then Set_add columns key
                  else columns)
               columns ks).
Proof.
  revert columns. induction ks as [|k0 ks IH]; intros columns Hnd; simpl.
  - exact Hnd.
  - apply IH. destruct (is_number (get row0 k0)); [|exact Hnd].
    apply NoDup_Set_add, Hnd.
Qed.

Lemma NoDup_allDataColumns experiments : NoDup (allDataColumns experiments).
Proof.
  unfold allDataColumns. generalize (NoDup_nil_2 (A := string)).
  generalize (@nil string) as columns. induction experiments as [|d rest IH];
    intros columns Hnd; simpl.
  - exact Hnd.
  - apply IH. destruct (data d) as [[|row0 rs]|]; try exact Hnd.
    apply NoDup_add_numeric_keys, Hnd.
Qed.

Lemma firstRowNumeric_hasMetric k exp :
  firstRowNumeric k exp → hasMetric k exp.
Proof.
  unfold firstRowNumeric, hasMetric.
  destruct (data exp) as [[|row0 rs]|]; try (intros []; fail).
  intros H. apply andb_True in H. tauto.
Qed.

Lemma experimentsWithMetric_skip l1 exp l2 m :
  ¬ hasMetric m exp →
  experimentsWithMetric (l1 ++ exp :: l2) m = experimentsWithMetric (l1 ++ l2) m.
Proof.
  intros Hno. unfold experimentsWithMetric.
  rewrite !filter_app, filter_cons_False by exact Hno. reflexivity.
Qed.

Lemma chartData_nonempty_iff experiments m :
  chartData experiments m ≠ [] ↔
  m ≠ "" ∧ ∃ exp, exp ∈ experiments ∧ hasMetric m exp.
Proof.
  split.
  - intros Hne. unfold chartData in Hne.
    destruct (decide (m = "")) as [|Hm]; [congruence|]. split; [exact Hm|].
    destruct (experimentsWithMetric experiments m) as [|exp rest] eqn:Hews;
      [simpl in Hne; congruence|].
    exists exp. apply and_comm, elem_of_experimentsWithMetric.
    rewrite Hews. apply list_elem_of_here.
  - intros (Hm & exp & Hin & Hhas) Hnil.
    assert (Hews : exp ∈ experimentsWithMetric experiments m)
      by (apply elem_of_experimentsWithMetric; tauto).
    pose proof (rows_le_maxLength _ _ Hews) as Hle.
    rewrite <- (length_chartData experiments m Hm), Hnil in Hle.
    apply hasMetric_rows in Hhas. destruct Hhas as (row0 & rs & Hrows & _).
    rewrite Hrows in Hle. simpl in Hle. lia.
Qed.

End ComparisonFacts.

(** X1: the metrics offered by the comparison panel are, without
    repetition, exactly the columns that hold a number in the first row of
    at least one of the compared experiments. *)
Theorem allDataColumns_offered experiments :
  NoDup (allDataColumns experiments) ∧
  ∀ k, k ∈ allDataColumns experiments ↔
       ∃ exp row0 rest x,
         exp ∈ experiments ∧ data exp = Some (row0 :: rest) ∧
         own row0 k = Some (VNum x).
Proof.
  split; [apply NoDup_allDataColumns|].
  intros k. rewrite elem_of_allDataColumns. split.
  - intros (exp & Hin & Hn). apply firstRowNumeric_spec in Hn.
    destruct Hn as (row0 & rest & x & Hd & Hx). exists exp, row0, rest, x. tauto.
  - intros (exp & row0 & rest & x & Hin & Hd & Hx). exists exp.
    split; [exact Hin|]. apply firstRowNumeric_spec. eauto.
Qed.

(** X2: the overlay chart has data exactly when a metric is selected and
    some compared experiment has at least one row whose first row has the
    metric as an own key. *)
Theorem chartData_nonempty experiments m :
  chartData experiments m ≠ [] ↔
  m ≠ "" ∧ ∃ exp row0 rest,
    exp ∈ experiments ∧ data exp = Some (row0 :: rest) ∧ is_Some (own row0 m).
Proof.
  rewrite chartData_nonempty_iff. split.
  - intros (Hm & exp & Hin & Hhas). split; [exact Hm|].
    pose proof (hasMetric_rows _ _ Hhas) as (row0 & rs & Hrows & Hown).
    exists exp, row0, rs. split; [exact Hin|]. split; [|exact Hown].
    unfold rows in Hrows. destruct (data exp) as [d|]; simpl in Hrows;
      [congruence | discriminate].
  - intros (Hm & exp & row0 & rs & Hin & Hd & Hown). split; [exact Hm|].
    exists exp. split; [exact Hin|]. unfold hasMetric. rewrite Hd.
    apply Is_true_true_2, hasOwnProperty_true, Hown.
Qed.

(** X3: every line of the overlay chart whose data key is not
    "__proto__" has a value under that key in the first chart record. *)
Theorem chartLines_have_points experiments m line :
  line ∈ chartLines experiments m → dataKey line ≠ "__proto__" →
  ∃ point,
    chartData experiments m !! 0 = Some point ∧
    is_Some (own point (dataKey line)).
Proof.
  intros Hline Hproto.
  assert (Hm : m ≠ "").
  { intros ->. unfold chartLines, chartData in Hline. simpl in Hline.
    apply elem_of_nil in Hline. exact Hline. }
  apply list_elem_of_lookup in Hline. destruct Hline as [i Hi].
  apply lookup_chartLines_Some in Hi. destruct Hi as (exp & Hexp & ->).
  simpl in Hproto. simpl.
  apply list_elem_of_lookup_2 in Hexp.
  pose proof Hexp as Hhas. apply elem_of_experimentsWithMetric in Hhas.
  destruct Hhas as [Hhas _]. apply hasMetric_rows in Hhas.
  destruct Hhas as (row0 & rs & Hrows & _).
  pose proof (rows_le_maxLength _ _ Hexp) as Hle.
  rewrite Hrows in Hle. simpl in Hle.
  exists (chartPoint (experimentsWithMetric experiments m) m 0).
  split; [apply lookup_chartData; [exact Hm | lia]|].
  rewrite own_chartPoint by exact Hproto.
  destruct (proj2 (lastWrite_is_Some (experimentsWithMetric experiments m)
                     m 0 (name exp))) as [v ->]; [|eauto].
  exists exp. rewrite Hrows. simpl. repeat split; [exact Hexp | lia].
Qed.

Lemma chartLines_have_points_witness :
  ∃ point,
    chartData [expX; expText] "v" !! 0 = Some point ∧
    is_Some (own point "A").
Proof.
  apply (chartLines_have_points [expX; expText] "v"
           {| key := "a"; dataKey := "A"; stroke := Some "#10B981" |}).
  - by_elem_of.
  - discriminate.
Defined.

(** X4: once a metric is selected, the rows of the summary table and the
    lines of the chart stand for the same experiments in the same order. *)
Theorem summaryStatistics_rows_match_lines Math_pow experiments m :
  m ≠ "" →
  (fun row => (rowKey row, rowName row))
    <$> summaryStatistics Math_pow experiments m =
  (fun line => (key line, dataKey line)) <$> chartLines experiments m.
Proof.
  intros Hm. unfold summaryStatistics. destruct (decide (m = "")); [congruence|].
  apply list_eq. intros i.
  rewrite !list_lookup_fmap, lookup_chartLines by exact Hm.
  destruct (experimentsWithMetric experiments m !! i); reflexivity.
Qed.

Lemma summaryStatistics_rows_match_lines_witness :
  (fun row => (rowKey row, rowName row))
    <$> summaryStatistics squarePow [expX; expY] "v" =
  (fun line => (key line, dataKey line)) <$> chartLines [expX; expY] "v".
Proof.
  apply (summaryStatistics_rows_match_lines squarePow [expX; expY] "v").
  discriminate.
Defined.

(** X5: every metric the picker offers, the empty column name apart, gives
    a chart with data and a summary row that counts at least one value. *)
Theorem offered_metric_has_data Math_pow experiments k :
  k ∈ allDataColumns experiments → k ≠ "" →
  chartData experiments k ≠ [] ∧
  ∃ row, row ∈ summaryStatistics Math_pow experiments k ∧ 1 ≤ count row.
Proof.
  intros Hk Hne. apply elem_of_allDataColumns in Hk.
  destruct Hk as (exp & Hin & Hnum).
  pose proof (firstRowNumeric_hasMetric _ _ Hnum) as Hhas.
  split.
  - apply chartData_nonempty_iff. eauto.
  - exists (summaryRow Math_pow k exp). split.
    + unfold summaryStatistics. destruct (decide (k = "")); [congruence|].
      apply list_elem_of_fmap_2, elem_of_experimentsWithMetric. tauto.
    + simpl. rewrite length_metricValues.
      apply firstRowNumeric_spec in Hnum.
      destruct Hnum as (row0 & rest & x & Hd & Hx).
      unfold rows. rewrite Hd. simpl. rewrite filter_cons_True.
      * simpl. lia.
      * apply is_number_get. eauto.
Qed.

Lemma offered_metric_has_data_witness :
  chartData [expText; expX] "t" ≠ [] ∧
  ∃ row, row ∈ summaryStatistics squarePow [expText; expX] "t" ∧ 1 ≤ count row.
Proof.
  apply (offered_metric_has_data squarePow [expText; expX] "t").
  - by_elem_of.
  - discriminate.
Defined.

(** X6: an experiment that lacks the metric, or has no data, leaves the
    chart records, the lines with their colors and the summary table as
    they are without it. *)
Theorem experiment_without_metric_inert Math_pow l1 exp l2 m :
  ¬ hasMetric m exp →
  chartData (l1 ++ exp :: l2) m = chartData (l1 ++ l2) m ∧
  chartLines (l1 ++ exp :: l2) m = chartLines (l1 ++ l2) m ∧
  summaryStatistics Math_pow (l1 ++ exp :: l2) m =
    summaryStatistics Math_pow (l1 ++ l2) m.
Proof.
  intros Hno. unfold chartLines, chartData, summaryStatistics.
  rewrite (experimentsWithMetric_skip l1 exp l2 m Hno). repeat split.
Qed.

Lemma experiment_without_metric_inert_witness :
  chartLines [expX; {| id := "n"; name := "N"; data := None |}; expY] "v"
  = chartLines [expX; expY] "v".
Proof.
  destruct (experiment_without_metric_inert squarePow
              [expX] {| id := "n"; name := "N"; data := None |} [expY] "v")
    as (_ & Hlines & _).
  - intros H. exact H.
  - exact Hlines.
Defined.

(** * Not-a-number cells and the count *)

Section SummaryNaN.

Variable Math_pow : float -> float -> float.

Implicit Types (experiments : list Experiment) (exp : Experiment) (m : string).

Lemma elem_of_metricValues m (d : list obj) x :
  x ∈ metricValues m d ↔ ∃ row, row ∈ d ∧ get row m = VNum x.
Proof.
  unfold metricValues. rewrite list_elem_of_omap. split.
  - intros (v & Hv & Hx). apply list_elem_of_fmap in Hv.
    destruct Hv as (row & -> & Hrow). exists row. split; [exact Hrow|].
    destruct (get row m); simpl in Hx; congruence.
  - intros (row & Hrow & Hx). exists (get row m). split.
    + apply (list_elem_of_fmap_2 (fun row => get row m)), Hrow.
    + rewrite Hx. reflexivity.
Qed.

Lemma Math_min_from_nan lowest (args : list float) x :
  x ∈ args → PrimFloat.is_nan x = true → Math_min_from lowest args = nan.
Proof.
  intros Hin Hnan. revert lowest.
  induction args as [|number rest IH]; intros lowest.
  - apply elem_of_nil in Hin. destruct Hin.
  - simpl. apply elem_of_cons in Hin. destruct Hin as [<- | Hin].
    + rewrite Hnan. reflexivity.
    + destruct (PrimFloat.is_nan number); [reflexivity|].
      destruct (is_neg_zero number && is_pos_zero lowest); [apply IH, Hin|].
      destruct (number <? lowest)%float; apply IH, Hin.
Qed.

Lemma Math_max_from_nan highest (args : list float) x :
  x ∈ args → PrimFloat.is_nan x = true → Math_max_from highest args = nan.
Proof.
  intros Hin Hnan. revert highest.
  induction args as [|number rest IH]; intros highest.
  - apply elem_of_nil in Hin. destruct Hin.
  - simpl. apply elem_of_cons in Hin. destruct Hin as [<- | Hin].
    + rewrite Hnan. reflexivity.
    + destruct (PrimFloat.is_nan number); [reflexivity|].
      destruct (is_pos_zero number && is_neg_zero highest); [apply IH, Hin|].
      destruct (highest <? number)%float; apply IH, Hin.
Qed.

(** IEEE arithmetic on NaN, from the specification of the primitive
    floats. *)
Lemma is_nan_eq x : PrimFloat.is_nan x = true → x = nan.
Proof.
  unfold PrimFloat.is_nan. rewrite FloatAxioms.eqb_spec. intros H.
  rewrite <- (SF2Prim_Prim2SF x).
  destruct (Prim2SF x) as [s|s| |s mt e] eqn:Hx; try reflexivity; exfalso.
  - destruct s; discriminate H.
  - destruct s; discriminate H.
  - unfold SpecFloat.SFeqb, SpecFloat.SFcompare in H.
    destruct s; rewrite ?Z.compare_refl, ?Pos.compare_cont_refl in H;
      simpl in H.
    all: try rewrite Pos.compare_cont_refl in H; try discriminate H.
    all: rewrite Pos.compare_refl in H; discriminate H.
Qed.

Lemma add_nan_l y : (nan + y = nan)%float.
Proof.
  rewrite <- (SF2Prim_Prim2SF (nan + y)), FloatAxioms.add_spec. reflexivity.
Qed.

Lemma add_nan_r x : (x + nan = nan)%float.
Proof.
  rewrite <- (SF2Prim_Prim2SF (x + nan)), FloatAxioms.add_spec.
  change (Prim2SF nan) with SpecFloat.S754_nan.
  destruct (Prim2SF x) as [s|s| |s mt e]; try reflexivity;
    destruct s; reflexivity.
Qed.

Lemma sub_nan_r x : (x - nan = nan)%float.
Proof.
  rewrite <- (SF2Prim_Prim2SF (x - nan)), FloatAxioms.sub_spec.
  change (Prim2SF nan) with SpecFloat.S754_nan.
  destruct (Prim2SF x) as [s|s| |s mt e]; try reflexivity;
    destruct s; reflexivity.
Qed.

Lemma div_nan_l y : (nan / y = nan)%float.
Proof.
  rewrite <- (SF2Prim_Prim2SF (nan / y)), FloatAxioms.div_spec. reflexivity.
Qed.

(** A sum that meets a NaN term is NaN. *)
Lemma foldl_add_nan_from {A} (f : A → float) (l : list A) :
  foldl (fun sum val => sum + f val)%float nan l = nan.
Proof.
  induction l as [|a l IH]; simpl; [reflexivity|].
  rewrite add_nan_l. exact IH.
Qed.

Lemma foldl_add_nan {A} (f : A → float) (l : list A) acc a :
  a ∈ l → f a = nan → foldl (fun sum val => sum + f val)%float acc l = nan.
Proof.
  intros Hin Ha. revert acc. induction l as [|b l IH]; intros acc.
  - apply elem_of_nil in Hin. destruct Hin.
  - simpl. apply elem_of_cons in Hin. destruct Hin as [<- | Hin].
    + rewrite Ha, add_nan_r. apply foldl_add_nan_from.
    + apply IH, Hin.
Qed.

Lemma lookup_summaryStatistics_Some experiments m i exp :
  m ≠ "" → experimentsWithMetric experiments m !! i = Some exp →
  summaryStatistics Math_pow experiments m !! i = Some (summaryRow Math_pow m exp).
Proof.
  intros Hm Hexp. unfold summaryStatistics.
  destruct (decide (m = "")); [congruence|].
  rewrite list_lookup_fmap, Hexp. reflexivity.
Qed.

Lemma length_filter_all {A} (P : A → Prop) `{!∀ x, Decision (P x)} (l : list A) :
  length (filter P l) = length l ↔ Forall P l.
Proof.
  induction l as [|a l IH].
  - split; [intros _; apply Forall_nil_2 | reflexivity].
  - rewrite filter_cons, Forall_cons. destruct (decide (P a)) as [Ha|Ha]; simpl.
    + rewrite <- IH. split; [intros Hlen; split; [exact Ha | lia] | intros [_ Hlen]; lia].
    + pose proof (length_filter P l). split; [lia | tauto].
Qed.

End SummaryNaN.

(** X7: a NaN in the metric column of a dataset makes the minimum and the
    maximum of its summary row NaN. *)
Theorem summaryStatistics_nan_min_max Math_pow experiments m i exp row x :
  m ≠ "" → experimentsWithMetric experiments m !! i = Some exp →
  row ∈ rows exp → get row m = VNum x → PrimFloat.is_nan x = true →
  ∃ srow,
    summaryStatistics Math_pow experiments m !! i = Some srow ∧
    min srow = nan ∧ max srow = nan.
Proof.
  intros Hm Hexp Hrow Hx Hnan. exists (summaryRow Math_pow m exp).
  split; [apply lookup_summaryStatistics_Some; assumption|].
  assert (Hin : x ∈ metricValues m (rows exp))
    by (apply elem_of_metricValues; eauto).
  simpl. split.
  - apply (Math_min_from_nan _ _ x Hin Hnan).
  - apply (Math_max_from_nan _ _ x Hin Hnan).
Qed.

Lemma summaryStatistics_nan_min_max_witness :
  ∃ srow,
    summaryStatistics squarePow
      [{| id := "q"; name := "Q";
          data := Some [[("v", num 1)]; [("v", num nan)]; [("v", num 3)]] |}]
      "v" !! 0 = Some srow ∧
    min srow = nan ∧ max srow = nan.
Proof.
  apply (summaryStatistics_nan_min_max squarePow _ "v" 0
           {| id := "q"; name := "Q";
              data := Some [[("v", num 1)]; [("v", num nan)]; [("v", num 3)]] |}
           [("v", num nan)] nan).
  - discriminate.
  - reflexivity.
  - by_elem_of.
  - reflexivity.
  - reflexivity.
Defined.

(** X8: a NaN in the metric column of a dataset makes the mean of its
    summary row NaN, and the standard deviation too when [Math.pow] of NaN
    is NaN. *)
Theorem summaryStatistics_nan_mean Math_pow experiments m i exp row x :
  m ≠ "" → experimentsWithMetric experiments m !! i = Some exp →
  row ∈ rows exp → get row m = VNum x → PrimFloat.is_nan x = true →
  ∃ srow,
    summaryStatistics Math_pow experiments m !! i = Some srow ∧
    avg srow = nan ∧
    (Math_pow nan 2%float = nan → stdDev srow = nan).
Proof.
  intros Hm Hexp Hrow Hx Hnan. exists (summaryRow Math_pow m exp).
  split; [apply lookup_summaryStatistics_Some; assumption|].
  assert (Hin : x ∈ metricValues m (rows exp))
    by (apply elem_of_metricValues; eauto).
  apply is_nan_eq in Hnan. subst x.
  assert (Havg : avg (summaryRow Math_pow m exp) = nan).
  { simpl. rewrite (foldl_add_nan (fun v => v) _ _ nan Hin eq_refl).
    apply div_nan_l. }
  split; [exact Havg|]. intros Hpow.
  simpl in Havg. simpl. rewrite Havg.
  rewrite (foldl_add_nan (fun val => Math_pow (val - nan) 2)%float _ _ nan Hin).
  - rewrite div_nan_l. reflexivity.
  - rewrite sub_nan_r. exact Hpow.
Qed.

Lemma summaryStatistics_nan_mean_witness :
  ∃ srow,
    summaryStatistics squarePow
      [{| id := "q"; name := "Q";
          data := Some [[("v", num 1)]; [("v", num nan)]; [("v", num 3)]] |}]
      "v" !! 0 = Some srow ∧
    avg srow = nan ∧ stdDev srow = nan.
Proof.
  destruct (summaryStatistics_nan_mean squarePow
              [{| id := "q"; name := "Q";
                  data := Some [[("v", num 1)]; [("v", num nan)];
                                [("v", num 3)]] |}] "v" 0
              {| id := "q"; name := "Q";
                 data := Some [[("v", num 1)]; [("v", num nan)];
                               [("v", num 3)]] |}
              [("v", num nan)] nan)
    as (srow & Hsrow & Havg & Hsd).
  - discriminate.
  - reflexivity.
  - by_elem_of.
  - reflexivity.
  - reflexivity.
  - exists srow. split; [exact Hsrow|]. split; [exact Havg|].
    apply Hsd. reflexivity.
Defined.

(** X9: the count of a summary row never exceeds the number of rows of its
    dataset, and equals it exactly when every row holds a number at the
    metric. *)
Theorem summaryStatistics_count_rows Math_pow experiments m i srow :
  summaryStatistics Math_pow experiments m !! i = Some srow →
  ∃ exp,
    experimentsWithMetric experiments m !! i = Some exp ∧
    count srow ≤ length (rows exp) ∧
    (count srow = length (rows exp) ↔
     ∀ row, row ∈ rows exp → ∃ x, own row m = Some (VNum x)).
Proof.
  intros Hsrow. apply lookup_summaryStatistics in Hsrow.
  destruct Hsrow as (exp & Hexp & ->). exists exp. split; [exact Hexp|].
  simpl. rewrite length_metricValues. split; [apply length_filter|].
  rewrite length_filter_all, Forall_forall. split.
  - intros H row Hrow. apply is_number_get, H, Hrow.
  - intros H row Hrow. apply is_number_get, H, Hrow.
Qed.

Lemma summaryStatistics_count_rows_witness :
  ∃ exp,
    experimentsWithMetric [expX] "v" !! 0 = Some exp ∧
    3 ≤ length (rows exp).
Proof.
  destruct (summaryStatistics_count_rows squarePow [expX] "v" 0
              (summaryRow squarePow "v" expX) eq_refl)
    as (exp & Hexp & Hle & _).
  exists exp. split; [exact Hexp | exact Hle].
Defined.

(** * More on the plot panel *)

Section PlotFacts.

Implicit Types (experiments : list Experiment) (d exp : Experiment).
Implicit Types (sel x y k : string) (row : obj).

Lemma findExperiment_is_Some experiments sel exp :
  exp ∈ experiments → id exp = sel → hasData exp →
  is_Some (findExperiment experiments sel).
Proof.
  intros Hin Hid Hdata. unfold findExperiment. apply fmap_is_Some.
  apply (list_find_elem_of _ _ exp); [|exact Hid].
  unfold experimentsWithData. apply list_elem_of_filter. tauto.
Qed.

Lemma hasData_rows exp : hasData exp ↔ rows exp ≠ [].
Proof.
  unfold hasData, rows. destruct (data exp) as [[|r rs]|]; simpl;
    split; try congruence; try (intros []; fail); intros _;
    first [exact I | discriminate].
Qed.

Lemma elem_of_availableColumns experiments sel k :
  k ∈ availableColumns experiments sel ↔
  sel ≠ "" ∧ ∃ d, findExperiment experiments sel = Some d ∧ firstRowNumeric k d.
Proof.
  unfold availableColumns. destruct (decide (sel = "")) as [Hs|Hs].
  - rewrite elem_of_nil. tauto.
  - destruct (findExperiment experiments sel) as [d|].
    + assert (Hd :
        k ∈ match data d with
            | Some (row0 :: _) =>
                filter (fun key => is_number (get row0 key)) (keys row0)
            | _ => []
            end ↔ firstRowNumeric k d).
      { unfold firstRowNumeric. destruct (data d) as [[|row0 rs]|].
        - rewrite elem_of_nil. split; intros [].
        - rewrite list_elem_of_filter, elem_of_keys, andb_True.
          rewrite <- hasOwnProperty_true,
            (Is_true_true (hasOwnProperty row0 k)). tauto.
        - rewrite elem_of_nil. split; intros []. }
      rewrite Hd. split.
      * intros H. split; [exact Hs|]. exists d. tauto.
      * intros (_ & d' & Heq & H). injection Heq as <-. exact H.
    + rewrite elem_of_nil. split; [tauto|].
      intros (_ & d' & Heq & _). discriminate Heq.
Qed.

(** The axis entries of a plot record. *)
Lemma get_plotRecord_x x y i row : get (plotRecord x y i row) x = get row x.
Proof.
  unfold get at 1. rewrite own_plotRecord.
  destruct (own row x) as [v|] eqn:Hv; [symmetry; apply own_get, Hv|].
  destruct (decide (y = x)) as [->|]; [reflexivity|].
  destruct (decide (x = x)); [reflexivity | congruence].
Qed.

Lemma get_plotRecord_y x y i row : get (plotRecord x y i row) y = get row y.
Proof.
  unfold get at 1. rewrite own_plotRecord.
  destruct (own row y) as [v|] eqn:Hv; [symmetry; apply own_get, Hv|].
  destruct (decide (y = y)); [reflexivity | congruence].
Qed.

End PlotFacts.

(** X10: the plot has data exactly when an experiment and both axes are
    selected and some experiment with that id has at least one row. *)
Theorem plotData_nonempty experiments sel x y :
  plotData experiments sel x y ≠ [] ↔
  sel ≠ "" ∧ x ≠ "" ∧ y ≠ "" ∧
  ∃ exp, exp ∈ experiments ∧ id exp = sel ∧ rows exp ≠ [].
Proof.
  split.
  - intros Hne. unfold plotData in Hne.
    destruct (decide (sel = "" ∨ x = "" ∨ y = "")) as [|Hsel]; [congruence|].
    destruct (findExperiment experiments sel) as [d|] eqn:Hfind; [|congruence].
    apply findExperiment_Some in Hfind. destruct Hfind as (Hin & Hdata & Hid).
    repeat split; try (intros ->; tauto).
    exists d. split; [exact Hin|]. split; [exact Hid|].
    apply hasData_rows, Hdata.
  - intros (Hsel & Hx & Hy & exp & Hin & Hid & Hrows).
    destruct (findExperiment_is_Some experiments sel exp Hin Hid) as [d Hfind];
      [apply hasData_rows, Hrows|].
    rewrite (plotData_selected _ _ _ _ d Hsel Hx Hy Hfind).
    apply findExperiment_Some in Hfind. destruct Hfind as (_ & Hdata & _).
    apply hasData_rows in Hdata. destruct (rows d); [congruence | discriminate].
Qed.

(** X11: when both axes are chosen among the columns the plot panel offers
    (and are not the empty column name), the first plot record holds a
    number on each axis. *)
Theorem offered_axes_numeric experiments sel x y :
  x ∈ availableColumns experiments sel →
  y ∈ availableColumns experiments sel →
  x ≠ "" → y ≠ "" →
  ∃ record vx vy,
    plotData experiments sel x y !! 0 = Some record ∧
    get record x = VNum vx ∧ get record y = VNum vy.
Proof.
  intros Hx Hy Hxne Hyne.
  apply elem_of_availableColumns in Hx. destruct Hx as (Hsel & d & Hfind & Hxn).
  apply elem_of_availableColumns in Hy. destruct Hy as (_ & d' & Hfind' & Hyn).
  assert (d' = d) by congruence. subst d'.
  apply firstRowNumeric_spec in Hxn. destruct Hxn as (row0 & rs & vx & Hd & Hvx).
  apply firstRowNumeric_spec in Hyn. destruct Hyn as (row0' & rs' & vy & Hd' & Hvy).
  assert (row0' = row0) by congruence. subst row0'.
  exists (plotRecord x y 0 row0), vx, vy. split.
  - apply (lookup_plotData _ _ _ _ d); try assumption.
    unfold rows. rewrite Hd. reflexivity.
  - rewrite get_plotRecord_x, get_plotRecord_y.
    split; apply own_get; assumption.
Qed.

Lemma offered_axes_numeric_witness :
  ∃ record vx vy,
    plotData [expText; expX] "x" "t" "v" !! 0 = Some record ∧
    get record "t" = VNum vx ∧ get record "v" = VNum vy.
Proof.
  apply (offered_axes_numeric [expText; expX] "x" "t" "v").
  - by_elem_of.
  - by_elem_of.
  - discriminate.
  - discriminate.
Defined.

(** X12: every column the plot panel offers for the selected experiment is
    also a metric the comparison panel offers for the same experiments. *)
Theorem availableColumns_offered_as_metric experiments sel k :
  k ∈ availableColumns experiments sel → k ∈ allDataColumns experiments.
Proof.
  intros Hk. apply elem_of_availableColumns in Hk.
  destruct Hk as (_ & d & Hfind & Hn). apply elem_of_allDataColumns.
  exists d. split; [|exact Hn]. apply findExperiment_Some in Hfind. tauto.
Qed.

Lemma availableColumns_offered_as_metric_witness :
  "v" ∈ allDataColumns [expText; expX].
Proof.
  apply (availableColumns_offered_as_metric [expText; expX] "x" "v").
  by_elem_of.
Defined.

(** * The dashboard: selection, upload and duplication *)

Section DashboardFacts.

Implicit Types (experiments prev : list Experiment) (exp : Experiment).
Implicit Types (e sel : string) (d : list obj).

Lemma id_applyUpload exp e d :
  id (if decide (id exp = e)
      then applyUpdates exp {| newId := None; newName := None; newData := Some d |}
      else exp) = id exp.
Proof. destruct (decide (id exp = e)); reflexivity. Qed.

Lemma elem_of_handleDataUpload prev e d exp' :
  exp' ∈ handleDataUpload prev e d → id exp' = e → data exp' = Some d.
Proof.
  unfold handleDataUpload, handleUpdateExperiment. intros Hin Hid.
  apply list_elem_of_fmap in Hin. destruct Hin as (exp & -> & _).
  rewrite id_applyUpload in Hid.
  destruct (decide (id exp = e)); [reflexivity | congruence].
Qed.

(** An upload to [e] does not change which experiment another id selects. *)
Lemma findExperiment_handleDataUpload_ne prev e d sel :
  sel ≠ e →
  findExperiment (handleDataUpload prev e d) sel = findExperiment prev sel.
Proof.
  intros Hne.
  unfold findExperiment, experimentsWithData, handleDataUpload,
    handleUpdateExperiment.
  induction prev as [|exp prev IH]; [reflexivity|].
  rewrite fmap_cons, !filter_cons.
  destruct (decide (id exp = e)) as [He|He].
  - destruct (decide (hasData (applyUpdates exp _))) as [H1|H1];
      destruct (decide (hasData exp)) as [H2|H2]; simpl;
      rewrite ?(decide_False (P := id exp = sel)) by congruence; simpl;
      try exact IH.
    + destruct (list_find _ (filter _ (_ <$> prev))) as [[i a]|] eqn:E1;
        destruct (list_find _ (filter _ prev)) as [[j b]|] eqn:E2;
        simpl in *; congruence.
    + destruct (list_find _ (filter _ (_ <$> prev))) as [[i a]|] eqn:E1;
        simpl in *; exact IH.
    + destruct (list_find _ (filter _ prev)) as [[j b]|] eqn:E2;
        simpl in *; exact IH.
  - destruct (decide (hasData exp)) as [H2|H2]; [|exact IH]. simpl.
    destruct (decide (id exp = sel)); [reflexivity|].
    destruct (list_find _ (filter _ (_ <$> prev))) as [[i a]|] eqn:E1;
      destruct (list_find _ (filter _ prev)) as [[j b]|] eqn:E2;
      simpl in *; congruence.
Qed.

Lemma list_find_first {A} (P : A → Prop) `{!∀ x, Decision (P x)}
    (l1 : list A) a l2 :
  (∀ x, x ∈ l1 → ¬ P x) → P a →
  list_find P (l1 ++ a :: l2) = Some (length l1, a).
Proof.
  intros Hl1 Ha. apply list_find_Some. split; [|split; [exact Ha|]].
  - rewrite lookup_app_r, Nat.sub_diag by lia. reflexivity.
  - intros j y Hj Hlt. rewrite lookup_app_l in Hj by exact Hlt.
    apply Hl1. eapply list_elem_of_lookup_2, Hj.
Qed.

End DashboardFacts.

Lemma filter_ne_not_elem_of (l : list string) e :
  e ∉ l → filter (fun i => i ≠ e) l = l.
Proof.
  intros Hnotin. induction l as [|a l IH]; [reflexivity|].
  rewrite filter_cons_True.
  - f_equal. apply IH. intros H. apply Hnotin, list_elem_of_further, H.
  - intros ->. apply Hnotin, list_elem_of_here.
Qed.

(** X13: ticking an experiment puts its id at the end of the selection,
    also when it is there already; unticking keeps the other ids, in their
    order and as often as they occur, and removes every occurrence of the
    id; unticking an id that is not selected changes nothing, and ticking
    then unticking such an id gives the selection back. *)
Theorem handleSelectExperiment_round_trip prev experimentId :
  handleSelectExperiment prev experimentId true = prev ++ [experimentId] ∧
  handleSelectExperiment prev experimentId false =
    filter (fun i => i ≠ experimentId) prev ∧
  (∀ i, i ∈ handleSelectExperiment prev experimentId false ↔
        i ∈ prev ∧ i ≠ experimentId) ∧
  handleSelectExperiment prev experimentId false `sublist_of` prev ∧
  (experimentId ∉ prev →
   handleSelectExperiment prev experimentId false = prev ∧
   handleSelectExperiment (handleSelectExperiment prev experimentId true)
     experimentId false = prev).
Proof.
  unfold handleSelectExperiment. split; [reflexivity|]. split; [reflexivity|].
  split; [|split].
  - intros i. rewrite list_elem_of_filter. tauto.
  - apply sublist_filter.
  - intros Hnotin. split; [apply filter_ne_not_elem_of, Hnotin|].
    rewrite filter_app, filter_cons_False, filter_nil, app_nil_r
      by (intros H; apply H; reflexivity).
    apply filter_ne_not_elem_of, Hnotin.
Qed.

Lemma handleSelectExperiment_round_trip_witness :
  handleSelectExperiment (handleSelectExperiment ["1"; "3"] "2" true) "2" false
  = ["1"; "3"].
Proof.
  destruct (handleSelectExperiment_round_trip ["1"; "3"] "2")
    as (_ & _ & _ & _ & H).
  apply H. by_decide.
Defined.

(** X14: the experiments handed to the comparison panel are those whose id
    is selected, in the order of the dashboard: two selections with the same
    ids, in whatever order they were ticked, give the same list, and
    unticking an id drops exactly the experiments with that id. *)
Theorem comparedExperiments_selection experiments selected :
  (∀ selected', (∀ i, i ∈ selected ↔ i ∈ selected') →
     comparedExperiments experiments selected =
     comparedExperiments experiments selected') ∧
  (∀ e, comparedExperiments experiments
          (handleSelectExperiment selected e false) =
        filter (fun exp => id exp ≠ e)
               (comparedExperiments experiments selected)) ∧
  comparedExperiments experiments selected `sublist_of` experiments.
Proof.
  unfold comparedExperiments. split; [|split].
  - intros selected' Hsame. apply list_filter_iff. intros exp. apply Hsame.
  - intros e. unfold handleSelectExperiment. rewrite list_filter_filter.
    apply list_filter_iff. intros exp. rewrite list_elem_of_filter. tauto.
  - apply sublist_filter.
Qed.

Lemma comparedExperiments_selection_witness :
  comparedExperiments [expX; expY; expText] ["a"; "x"] =
  comparedExperiments [expX; expY; expText] ["x"; "a"; "x"].
Proof.
  destruct (comparedExperiments_selection [expX; expY; expText] ["a"; "x"])
    as (H & _ & _).
  apply H. intros i. rewrite !elem_of_cons, !elem_of_nil. tauto.
Defined.

(** X15: after rows are uploaded to an existing experiment, selecting its
    id plots exactly the uploaded rows, one record per row, and the axes
    offered are the columns numeric in the first uploaded row. *)
Theorem upload_then_plot prev e d x y :
  e ≠ "" → x ≠ "" → y ≠ "" →
  (∃ exp, exp ∈ prev ∧ id exp = e) → d ≠ [] →
  plotData (handleDataUpload prev e d) e x y = imap (plotRecord x y) d ∧
  ∀ k, k ∈ availableColumns (handleDataUpload prev e d) e ↔
       ∃ row0 rest v, d = row0 :: rest ∧ own row0 k = Some (VNum v).
Proof.
  intros He Hx Hy (exp & Hin & Hid) Hd.
  assert (Hfound : ∃ exp', findExperiment (handleDataUpload prev e d) e = Some exp'
                           ∧ data exp' = Some d).
  { destruct (findExperiment_is_Some (handleDataUpload prev e d) e
                (applyUpdates exp {| newId := None; newName := None;
                                     newData := Some d |}))
      as [exp' Hfind].
    - unfold handleDataUpload, handleUpdateExperiment.
      apply list_elem_of_fmap. exists exp. split; [|exact Hin].
      destruct (decide (id exp = e)); [reflexivity | congruence].
    - exact Hid.
    - unfold hasData. simpl. destruct d; [congruence | exact I].
    - exists exp'. split; [exact Hfind|].
      apply findExperiment_Some in Hfind. destruct Hfind as (Hin' & _ & Hid').
      apply (elem_of_handleDataUpload prev e d exp' Hin' Hid'). }
  destruct Hfound as (exp' & Hfind & Hdata). split.
  - rewrite (plotData_selected _ _ _ _ exp' He Hx Hy Hfind).
    unfold rows. rewrite Hdata. reflexivity.
  - intros k. rewrite elem_of_availableColumns. split.
    + intros (_ & d' & Hfind' & Hn). assert (d' = exp') by congruence. subst d'.
      apply firstRowNumeric_spec in Hn.
      destruct Hn as (row0 & rest & v & Hd' & Hv).
      exists row0, rest, v. split; [congruence | exact Hv].
    + intros (row0 & rest & v & -> & Hv). split; [exact He|].
      exists exp'. split; [exact Hfind|]. apply firstRowNumeric_spec. eauto.
Qed.

Lemma upload_then_plot_witness :
  plotData (handleDataUpload [expText; expX] "a" (rows expY)) "a" "t" "v"
  = imap (plotRecord "t" "v") (rows expY).
Proof.
  destruct (upload_then_plot [expText; expX] "a" (rows expY) "t" "v")
    as [H _]; try discriminate.
  - exists expText. split; [by_elem_of | reflexivity].
  - exact H.
Defined.

(** X16: after an upload without rows, the experiment cannot be plotted
    any more, whatever data it held before. *)
Theorem empty_upload_then_plot prev e x y :
  plotData (handleDataUpload prev e []) e x y = [] ∧
  availableColumns (handleDataUpload prev e []) e = [].
Proof.
  assert (Hnone : findExperiment (handleDataUpload prev e []) e = None).
  { apply findExperiment_None. intros exp Hin Hid. unfold rows.
    rewrite (elem_of_handleDataUpload prev e [] exp Hin Hid). reflexivity. }
  unfold plotData, availableColumns. rewrite Hnone.
  destruct (decide (e = "" ∨ x = "" ∨ y = "")), (decide (e = ""));
    split; reflexivity.
Qed.

(** X17: an upload to one experiment leaves the plot and the offered axes
    of every other id as they were. *)
Theorem upload_keeps_other_plots prev e d sel x y :
  sel ≠ e →
  plotData (handleDataUpload prev e d) sel x y = plotData prev sel x y ∧
  availableColumns (handleDataUpload prev e d) sel = availableColumns prev sel.
Proof.
  intros Hne. unfold plotData, availableColumns.
  rewrite (findExperiment_handleDataUpload_ne prev e d sel Hne).
  split; reflexivity.
Qed.

Lemma upload_keeps_other_plots_witness :
  plotData (handleDataUpload [expText; expX] "a" (rows expY)) "x" "t" "v"
  = plotData [expText; expX] "x" "t" "v".
Proof.
  apply (upload_keeps_other_plots [expText; expX] "a" (rows expY) "x" "t" "v").
  discriminate.
Defined.

(** X18: when [original] is the first experiment with the id, duplicating
    puts in front a copy with the new id, the name followed by " (Copy)"
    and the same data; duplicating the same experiment a second time gives
    a second copy under the very same name; an id that no experiment has
    changes nothing. *)
Theorem handleDuplicateExperiment_copies now1 now2 l1 original l2 :
  (∀ exp, exp ∈ l1 → id exp ≠ id original) →
  let copy now :=
    {| id := now; name := String.append (name original) " (Copy)";
       data := data original |} in
  handleDuplicateExperiment now1 (l1 ++ original :: l2) (id original) =
    copy now1 :: l1 ++ original :: l2 ∧
  (now1 ≠ id original →
   handleDuplicateExperiment now2
     (handleDuplicateExperiment now1 (l1 ++ original :: l2) (id original))
     (id original) =
   copy now2 :: copy now1 :: l1 ++ original :: l2) ∧
  (∀ e, (∀ exp, exp ∈ l1 ++ original :: l2 → id exp ≠ e) →
        handleDuplicateExperiment now1 (l1 ++ original :: l2) e =
        l1 ++ original :: l2).
Proof.
  intros Hl1 copy.
  assert (Hfirst :
    handleDuplicateExperiment now1 (l1 ++ original :: l2) (id original) =
    copy now1 :: l1 ++ original :: l2).
  { unfold handleDuplicateExperiment.
    rewrite (list_find_first (fun exp => id exp = id original) l1 original l2)
      by (try reflexivity; exact Hl1).
    reflexivity. }
  split; [exact Hfirst|]. split.
  - intros Hnow. rewrite Hfirst. unfold handleDuplicateExperiment.
    rewrite (list_find_first (fun exp => id exp = id original)
               (copy now1 :: l1) original l2).
    + reflexivity.
    + intros exp Hexp. apply elem_of_cons in Hexp.
      destruct Hexp as [-> | Hexp]; [exact Hnow | apply Hl1, Hexp].
    + reflexivity.
  - intros e Hnone. unfold handleDuplicateExperiment.
    destruct (list_find _ _) as [[i exp]|] eqn:Hfind; [|reflexivity].
    apply list_find_Some in Hfind. destruct Hfind as (Hi & Hid & _).
    exfalso. apply (Hnone exp); [eapply list_elem_of_lookup_2, Hi | exact Hid].
Qed.

Lemma handleDuplicateExperiment_copies_witness :
  name <$> handleDuplicateExperiment "1700000000001"
             (handleDuplicateExperiment "1700000000000" [expY; expX] "x") "x"
  = ["X (Copy)"; "X (Copy)"; "Y"; "X"].
Proof.
  destruct (handleDuplicateExperiment_copies "1700000000000" "1700000000001"
              [expY] expX []) as (_ & H & _).
  - intros exp Hexp. apply list_elem_of_singleton in Hexp. subst exp.
    discriminate.
  - simpl in H. rewrite H by discriminate. reflexivity.
Defined.

(** X19: the copy of an experiment with data, selected by its new id, plots
    exactly what the original plots, and is offered the same axes. *)
Theorem duplicate_plots_like_original now l1 original l2 x y :
  (∀ exp, exp ∈ l1 → id exp ≠ id original) →
  hasData original → now ≠ "" → id original ≠ "" →
  plotData (handleDuplicateExperiment now (l1 ++ original :: l2) (id original))
           now x y
  = plotData (l1 ++ original :: l2) (id original) x y ∧
  availableColumns
    (handleDuplicateExperiment now (l1 ++ original :: l2) (id original)) now
  = availableColumns (l1 ++ original :: l2) (id original).
Proof.
  intros Hl1 Hdata Hnow Hid.
  assert (Hdup :
    handleDuplicateExperiment now (l1 ++ original :: l2) (id original) =
    {| id := now; name := String.append (name original) " (Copy)";
       data := data original |} :: l1 ++ original :: l2).
  { unfold handleDuplicateExperiment.
    rewrite (list_find_first (fun exp => id exp = id original) l1 original l2)
      by (try reflexivity; exact Hl1).
    reflexivity. }
  assert (Hcopy :
    findExperiment
      ({| id := now; name := String.append (name original) " (Copy)";
          data := data original |} :: l1 ++ original :: l2) now =
    Some {| id := now; name := String.append (name original) " (Copy)";
            data := data original |}).
  { unfold findExperiment, experimentsWithData.
    rewrite filter_cons_True by exact Hdata. simpl.
    destruct (decide (now = now)); [reflexivity | congruence]. }
  assert (Horig :
    findExperiment (l1 ++ original :: l2) (id original) = Some original).
  { unfold findExperiment, experimentsWithData.
    rewrite filter_app, filter_cons_True by exact Hdata.
    rewrite (list_find_first (fun exp => id exp = id original)).
    - reflexivity.
    - intros exp Hexp. apply list_elem_of_filter in Hexp. apply Hl1, Hexp.
    - reflexivity. }
  rewrite Hdup. unfold plotData, availableColumns. rewrite Hcopy, Horig. simpl.
  destruct (decide (now = "")); [congruence|].
  destruct (decide (id original = "")); [congruence|].
  destruct (decide (now = "" ∨ x = "" ∨ y = "")) as [[?|H1]|H1];
    [congruence| |];
    destruct (decide (id original = "" ∨ x = "" ∨ y = "")) as [[?|H2]|H2];
    try congruence; try tauto; split; reflexivity.
Qed.

Lemma duplicate_plots_like_original_witness :
  plotData (handleDuplicateExperiment "1700000000000" [expY; expX] "x")
           "1700000000000" "t" "v"
  = plotData [expY; expX] "x" "t" "v".
Proof.
  apply (duplicate_plots_like_original "1700000000000" [expY] expX [] "t" "v").
  - intros exp Hexp. apply list_elem_of_singleton in Hexp. subst exp.
    discriminate.
  - exact I.
  - discriminate.
  - discriminate.
Defined.

(** * The new-experiment form and the custom parameters *)

Section FormFacts.

Implicit Types (o : obj) (k : string) (es : list (string * value)).

(** Entries whose value is a function of their key, written in order. *)
Lemma own_foldl_put (g : string → value) es o k :
  (∀ e, e ∈ es → e.2 = g e.1) →
  own (foldl (fun o e => put o e.1 e.2) o es) k =
    if decide (k ∈ es.*1) then Some (g k) else own o k.
Proof.
  revert o. induction es as [|[k0 v0] es IH]; intros o Hg.
  - simpl. destruct (decide (k ∈ [])) as [Hin|]; [|reflexivity].
    apply elem_of_nil in Hin. destruct Hin.
  - rewrite fmap_cons. cbn [foldl fst snd].
    rewrite IH by (intros e He; apply Hg, list_elem_of_further, He).
    destruct (decide (k ∈ es.*1)) as [Hin|Hnin].
    + destruct (decide (k ∈ k0 :: es.*1)) as [|Hn]; [reflexivity|].
      exfalso. apply Hn, list_elem_of_further, Hin.
    + rewrite own_put. destruct (decide (k0 = k)) as [->|Hne].
      * destruct (decide (k ∈ k :: es.*1)) as [|Hn].
        -- f_equal. apply (Hg (k, v0)), list_elem_of_here.
        -- exfalso. apply Hn, list_elem_of_here.
      * destruct (decide (k ∈ k0 :: es.*1)) as [Hin|]; [|reflexivity].
        apply elem_of_cons in Hin. destruct Hin; congruence.
Qed.

Lemma own_removeCustomColumn o keyToRemove k :
  own (removeCustomColumn o keyToRemove) k =
    if decide (k = keyToRemove) then None else own o k.
Proof.
  unfold removeCustomColumn, fromEntries.
  rewrite (own_foldl_put (get o)).
  - assert (Hin : k ∈ (filter (fun e => e.1 ≠ keyToRemove) (entries o)).*1 ↔
                  k ≠ keyToRemove ∧ is_Some (own o k)).
    { rewrite list_elem_of_fmap. split.
      - intros ([k' v] & -> & He). apply list_elem_of_filter in He.
        destruct He as [Hne He]. split; [exact Hne|].
        unfold entries in He. apply list_elem_of_fmap in He.
        destruct He as (k'' & Heq & Hk). injection Heq as -> _.
        apply elem_of_keys, Hk.
      - intros [Hne Hown]. exists (k, get o k). split; [reflexivity|].
        apply list_elem_of_filter. split; [exact Hne|].
        unfold entries. apply (list_elem_of_fmap_2 (fun k => (k, get o k))).
        apply elem_of_keys, Hown. }
    destruct (decide (k ∈ _)) as [H|H]; destruct (decide (k = keyToRemove)) as [->|Hne].
    + apply Hin in H. tauto.
    + apply Hin in H. destruct H as [_ [v Hv]]. rewrite Hv.
      f_equal. apply own_get, Hv.
    + reflexivity.
    + destruct (own o k) as [v|] eqn:Hv; [|reflexivity].
      exfalso. apply H, Hin. eauto.
  - intros [k' v] He. apply list_elem_of_filter in He. destruct He as [_ He].
    unfold entries in He. apply list_elem_of_fmap in He.
    destruct He as (k'' & Heq & _). injection Heq as -> ->. reflexivity.
Qed.

Lemma own_addCustomColumn trim o newKey newValue k :
  own (addCustomColumn trim o newKey newValue) k =
    if decide (trim newKey ≠ "" ∧ trim newValue ≠ "" ∧ trim newKey = k)
    then Some (VStr (trim newValue)) else own o k.
Proof.
  unfold addCustomColumn.
  destruct (decide (trim newKey ≠ "" ∧ trim newValue ≠ "")) as [Hok|Hno].
  - rewrite own_put, own_spread. simpl.
    destruct (decide (trim newKey = k)) as [Hk|Hk].
    + destruct (decide (_ ∧ _ ∧ _)) as [|Hn]; [reflexivity | tauto].
    + destruct (decide (_ ∧ _ ∧ _)) as [[_ [_ ?]]|]; [congruence|].
      destruct (own o k); reflexivity.
  - destruct (decide (_ ∧ _ ∧ _)) as [[? [? _]]|]; [tauto | reflexivity].
Qed.

Lemma NoDup_Set_add_fold (ks columns : list string) :
  NoDup columns → NoDup (foldl Set_add columns ks).
Proof.
  revert columns. induction ks as [|k ks IH]; intros columns Hnd; simpl.
  - exact Hnd.
  - apply IH, NoDup_Set_add, Hnd.
Qed.

Lemma elem_of_Set_add_fold (ks columns : list string) k :
  k ∈ foldl Set_add columns ks ↔ k ∈ columns ∨ k ∈ ks.
Proof.
  revert columns. induction ks as [|k0 ks IH]; intros columns; simpl.
  - rewrite elem_of_nil. tauto.
  - rewrite IH, elem_of_Set_add, elem_of_cons. tauto.
Qed.

End FormFacts.

(** X20: the tags of the form stay pairwise distinct and never contain the
    empty tag, whatever is added or removed. *)
Theorem tags_stay_distinct trim tags text :
  NoDup tags → "" ∉ tags →
  (NoDup (addTag trim tags text).1 ∧ "" ∉ (addTag trim tags text).1) ∧
  (NoDup (removeTag tags text) ∧ "" ∉ removeTag tags text).
Proof.
  intros Hnd Hne. split.
  - unfold addTag.
    destruct (decide (trim text ≠ "" ∧ trim text ∉ tags)) as [[Hblank Hnew]|];
      simpl; [|tauto].
    split.
    + apply NoDup_app. split; [exact Hnd|]. split; [|apply NoDup_singleton].
      intros t Ht Hin. apply list_elem_of_singleton in Hin. congruence.
    + rewrite elem_of_app, list_elem_of_singleton. intros [?|?]; congruence.
  - unfold removeTag. split; [apply NoDup_filter, Hnd|].
    rewrite list_elem_of_filter. tauto.
Qed.

Lemma tags_stay_distinct_witness :
  NoDup (addTag (fun s => s) ["battery"] "thermal").1 ∧
  "" ∉ (addTag (fun s => s) ["battery"] "thermal").1.
Proof.
  apply (tags_stay_distinct (fun s => s) ["battery"] "thermal"); by_decide.
Defined.

(** X21: a tag that is blank after trimming, or already present, is not
    added and the text typed stays in the input; a new tag is added trimmed
    at the end, the input is cleared, and removing it again gives the tags
    back. *)
Theorem addTag_removeTag trim tags text :
  (trim text = "" ∨ trim text ∈ tags → addTag trim tags text = (tags, text)) ∧
  (trim text ≠ "" → trim text ∉ tags →
   addTag trim tags text = (tags ++ [trim text], "") ∧
   removeTag (addTag trim tags text).1 (trim text) = tags).
Proof.
  unfold addTag. split.
  - intros H. destruct (decide (_ ∧ _)) as [[? ?]|]; [tauto | reflexivity].
  - intros Hblank Hnew. destruct (decide (_ ∧ _)) as [|]; [|tauto].
    split; [reflexivity|]. simpl. unfold removeTag.
    rewrite filter_app, filter_cons_False, filter_nil, app_nil_r
      by (intros H; apply H; reflexivity).
    clear -Hnew. induction tags as [|t tags IH]; [reflexivity|].
    rewrite filter_cons_True.
    + f_equal. apply IH. intros H. apply Hnew, list_elem_of_further, H.
    + intros ->. apply Hnew, list_elem_of_here.
Qed.

Lemma addTag_removeTag_witness :
  removeTag (addTag (fun s => s) ["battery"] "thermal").1 "thermal"
  = ["battery"].
Proof.
  destruct (addTag_removeTag (fun s => s) ["battery"] "thermal") as [_ H].
  apply H; [discriminate | by_decide].
Defined.

(** X22: a custom parameter added with a non-blank key and value is read
    back, trimmed, under the trimmed key, and every other key reads as
    before; with a blank key or value nothing changes; removing a key makes
    it absent and leaves every other key; and adding a new key and removing
    it again leaves every key reading as at the start. *)
Theorem customColumns_add_remove trim customColumns newKey newValue :
  (∀ k, own (addCustomColumn trim customColumns newKey newValue) k =
        if decide (trim newKey ≠ "" ∧ trim newValue ≠ "" ∧ trim newKey = k)
        then Some (VStr (trim newValue)) else own customColumns k) ∧
  (∀ keyToRemove k,
     own (removeCustomColumn customColumns keyToRemove) k =
       if decide (k = keyToRemove) then None else own customColumns k) ∧
  (own customColumns (trim newKey) = None →
   ∀ k, own (removeCustomColumn
               (addCustomColumn trim customColumns newKey newValue)
               (trim newKey)) k
        = own customColumns k).
Proof.
  split; [|split].
  - apply own_addCustomColumn.
  - apply own_removeCustomColumn.
  - intros Hfresh k. rewrite own_removeCustomColumn, own_addCustomColumn.
    destruct (decide (k = trim newKey)) as [->|Hne]; [congruence|].
    destruct (decide (_ ∧ _ ∧ _)) as [[_ [_ ?]]|]; [congruence | reflexivity].
Qed.

Lemma customColumns_add_remove_witness :
  own (removeCustomColumn
         (addCustomColumn (fun s => s) [("voltage", VStr "3.7V")]
                          "current" "2.1A") "current") "voltage"
  = Some (VStr "3.7V") ∧
  own (removeCustomColumn
         (addCustomColumn (fun s => s) [("voltage", VStr "3.7V")]
                          "current" "2.1A") "current") "current"
  = None.
Proof.
  destruct (customColumns_add_remove (fun s => s) [("voltage", VStr "3.7V")]
              "current" "2.1A") as (_ & _ & H).
  split; [apply (H eq_refl "voltage") | apply (H eq_refl "current")].
Defined.

(** X23: the custom parameters table has one row per parameter name that
    some compared experiment carries, each name once. *)
Theorem allCustomColumns_names (customColumns : list obj) :
  NoDup (allCustomColumns customColumns) ∧
  ∀ k, k ∈ allCustomColumns customColumns ↔
       ∃ cc, cc ∈ customColumns ∧ is_Some (own cc k).
Proof.
  unfold allCustomColumns.
  assert (Hgen : ∀ (ccs : list obj) (columns : list string),
    NoDup columns →
    NoDup (foldl (fun columns cc => foldl Set_add columns (keys cc)) columns ccs) ∧
    ∀ k, k ∈ foldl (fun columns cc => foldl Set_add columns (keys cc)) columns ccs
         ↔ k ∈ columns ∨ ∃ cc, cc ∈ ccs ∧ is_Some (own cc k)).
  { induction ccs as [|cc ccs IH]; intros columns Hnd; simpl.
    - split; [exact Hnd|]. intros k. split; [tauto|].
      intros [?|(cc & Hcc & _)]; [assumption|].
      apply elem_of_nil in Hcc. destruct Hcc.
    - destruct (IH (foldl Set_add columns (keys cc))
                  (NoDup_Set_add_fold _ _ Hnd)) as [Hnd' Hmem].
      split; [exact Hnd'|]. intros k.
      rewrite Hmem, elem_of_Set_add_fold, elem_of_keys. split.
      + intros [[?|Hk]|(cc' & Hcc' & Hk)]; [tauto| |].
        * right. exists cc. split; [apply list_elem_of_here | exact Hk].
        * right. exists cc'. split; [apply list_elem_of_further, Hcc' | exact Hk].
      + intros [?|(cc' & Hcc' & Hk)]; [tauto|].
        apply elem_of_cons in Hcc'. destruct Hcc' as [-> | Hcc']; [tauto|].
        right. eauto. }
  destruct (Hgen customColumns [] (NoDup_nil_2 (A := string))) as [Hnd Hmem].
  split; [exact Hnd|]. intros k. rewrite Hmem, elem_of_nil. tauto.
Qed.

(** * The sample rows of an upload *)

Section SampleFacts.

Variable toLowerCase : string -> string.
Variable draw : nat.
Variable random : nat -> float.

Implicit Types (filename k e : string) (prev : list Experiment).

Local Ltac settle_column k :=
  unfold get; cbn [own];
  repeat (destruct (decide (_ = k)) as [<-|?]; cbn [default is_number]);
  (split; intros Hk;
   [ first [ destruct Hk; fail
           | solve [repeat (apply list_elem_of_here
                            || apply list_elem_of_further)] ]
   | first [ exact I
           | exfalso; rewrite ?elem_of_cons, elem_of_nil in Hk;
             intuition congruence ] ]).

(** In every sample row the numeric columns are the same: the row index
    plays no part. *)
Lemma sampleRow_numeric filename i k :
  is_number (get (sampleRow toLowerCase random filename i) k) ↔
  k ∈ sampleColumns toLowerCase filename.
Proof.
  clear draw. unfold sampleRow, sampleColumns.
  destruct (isBattery toLowerCase filename);
    [|destruct (isThermal toLowerCase filename)]; settle_column k.
Qed.

Lemma length_generateSampleData filename :
  length (generateSampleData toLowerCase draw random filename) = draw + 20.
Proof. unfold generateSampleData. rewrite length_fmap, length_seq. reflexivity. Qed.

Lemma elem_of_generateSampleData filename row :
  row ∈ generateSampleData toLowerCase draw random filename →
  ∃ i, row = sampleRow toLowerCase random filename i.
Proof.
  unfold generateSampleData. intros Hrow. apply list_elem_of_fmap in Hrow.
  destruct Hrow as (i & -> & _). eauto.
Qed.

Lemma findExperiment_handleDataUpload prev e (d : list obj) :
  (∃ exp, exp ∈ prev ∧ id exp = e) → d ≠ [] →
  ∃ exp', findExperiment (handleDataUpload prev e d) e = Some exp' ∧
          data exp' = Some d.
Proof.
  intros (exp & Hin & Hid) Hd.
  destruct (findExperiment_is_Some (handleDataUpload prev e d) e
              (applyUpdates exp {| newId := None; newName := None;
                                   newData := Some d |}))
    as [exp' Hfind].
  - unfold handleDataUpload, handleUpdateExperiment.
    apply list_elem_of_fmap. exists exp. split; [|exact Hin].
    destruct (decide (id exp = e)); [reflexivity | congruence].
  - exact Hid.
  - unfold hasData. simpl. destruct d; [congruence | exact I].
  - exists exp'. split; [exact Hfind|].
    apply findExperiment_Some in Hfind. destruct Hfind as (Hin' & _ & Hid').
    apply (elem_of_handleDataUpload prev e d exp' Hin' Hid').
Qed.

End SampleFacts.

(** X24: the sample data of a file has at least 20 rows, and in each of
    them exactly the same columns hold numbers: the text column
    "measurement" of the generic rows never does. *)
Theorem generateSampleData_columns toLowerCase draw random filename :
  length (generateSampleData toLowerCase draw random filename) = draw + 20 ∧
  (∀ row k, row ∈ generateSampleData toLowerCase draw random filename →
     (is_number (get row k) ↔ k ∈ sampleColumns toLowerCase filename)) ∧
  "measurement" ∉ sampleColumns toLowerCase filename.
Proof.
  split; [apply length_generateSampleData|]. split.
  - intros row k Hrow. apply elem_of_generateSampleData in Hrow.
    destruct Hrow as [i ->].
    exact (sampleRow_numeric toLowerCase random filename i k).
  - unfold sampleColumns.
    destruct (isBattery toLowerCase filename);
      [|destruct (isThermal toLowerCase filename)];
      rewrite !elem_of_cons, elem_of_nil; intuition discriminate.
Qed.

(** X25: after the sample rows of a file are uploaded to an experiment,
    the axes offered for it are the numeric sample columns of that kind of
    file, in the order of the row. *)
Theorem sample_upload_columns toLowerCase draw random filename prev e :
  e ≠ "" → (∃ exp, exp ∈ prev ∧ id exp = e) →
  availableColumns
    (handleDataUpload prev e
       (generateSampleData toLowerCase draw random filename)) e
  = sampleColumns toLowerCase filename.
Proof.
  intros He Hexp.
  destruct (findExperiment_handleDataUpload prev e
              (generateSampleData toLowerCase draw random filename) Hexp)
    as (exp' & Hfind & Hdata).
  { intros Hnil. apply (f_equal length) in Hnil.
    rewrite length_generateSampleData in Hnil. simpl in Hnil. lia. }
  unfold availableColumns. destruct (decide (e = "")); [congruence|].
  rewrite Hfind, Hdata. unfold generateSampleData.
  replace (draw + 20) with (S (draw + 19)) by lia. cbn [seq fmap list_fmap].
  unfold sampleRow, sampleColumns.
  destruct (isBattery toLowerCase filename);
    [|destruct (isThermal toLowerCase filename)]; reflexivity.
Qed.

Lemma sample_upload_columns_witness :
  availableColumns
    (handleDataUpload [expText] "a"
       (generateSampleData (fun s => s) 7 (fun _ => 0.5%float) "run.csv")) "a"
  = ["time"; "value_1"; "value_2"; "value_3"].
Proof.
  apply (sample_upload_columns (fun s => s) 7 (fun _ => 0.5%float) "run.csv"
           [expText] "a").
  - discriminate.
  - exists expText. split; [by_elem_of | reflexivity].
Defined.

(** X26: for an experiment holding the sample rows of a file, every numeric
    sample column gives a summary row whose count is the number of rows. *)
Theorem sample_summary_count Math_pow toLowerCase draw random filename exp m :
  data exp = Some (generateSampleData toLowerCase draw random filename) →
  m ∈ sampleColumns toLowerCase filename →
  ∃ srow,
    summaryStatistics Math_pow [exp] m = [srow] ∧ count srow = draw + 20.
Proof.
  intros Hdata Hm.
  assert (Hne : m ≠ "").
  { intros ->. revert Hm. unfold sampleColumns.
    destruct (isBattery toLowerCase filename);
      [|destruct (isThermal toLowerCase filename)];
      rewrite !elem_of_cons, elem_of_nil; intuition discriminate. }
  assert (Hrows : rows exp = generateSampleData toLowerCase draw random filename)
    by (unfold rows; rewrite Hdata; reflexivity).
  assert (Hhas : hasMetric m exp).
  { unfold hasMetric. rewrite Hdata. unfold generateSampleData.
    replace (draw + 20) with (S (draw + 19)) by lia. cbn [seq fmap list_fmap].
    apply Is_true_true_2, hasOwnProperty_true.
    destruct (proj1 (is_number_get _ m)
                (proj2 (sampleRow_numeric toLowerCase random filename 0 m) Hm))
      as [x Hx].
    eauto. }
  exists (summaryRow Math_pow m exp). split.
  - unfold summaryStatistics, experimentsWithMetric.
    destruct (decide (m = "")); [congruence|].
    rewrite filter_cons_True by exact Hhas. reflexivity.
  - simpl. rewrite length_metricValues, Hrows.
    rewrite <- (length_generateSampleData toLowerCase draw random filename).
    apply length_filter_all, Forall_forall. intros row Hrow.
    apply elem_of_generateSampleData in Hrow. destruct Hrow as [i ->].
    apply sampleRow_numeric, Hm.
Qed.

Lemma sample_summary_count_witness :
  ∃ srow,
    summaryStatistics squarePow
      [{| id := "s"; name := "S";
          data := Some (generateSampleData (fun s => s) 7
                          (fun _ => 0.5%float) "battery.xlsx") |}] "voltage"
    = [srow] ∧ count srow = 27.
Proof.
  apply (sample_summary_count squarePow (fun s => s) 7 (fun _ => 0.5%float)
           "battery.xlsx").
  - reflexivity.
  - by_elem_of.
Defined.
